(** * scraper.py: the fetch, parse and extract pipeline

    A shallow embedding of [src/scraper.py].  Python values that the
    script handles are modelled by inductive types, exceptions by a
    tagged union with the chained [__context__] of a [ValueError],
    and the effects of the script (the logging sink, [time.sleep] and
    the HTTP calls that were issued) by a state and exception monad
    over a [world].

    The third-party packages the script imports ([requests], [bs4],
    [json], [ratelimit]) are not part of the repository.  What they
    answer is a parameter of the model ([requests_get_result],
    [BeautifulSoup], [json_loads]); the documented behaviour of the few
    calls the script makes on their results ([raise_for_status],
    [soup.body], [tag.text], [time.sleep]) is written out. *)

From Stdlib Require Import List String Ascii ZArith QArith Bool Arith Lia.
From Stdlib Require Import Floats.SpecFloat.
Import ListNotations.

Set Warnings "-register-all".

Local Close Scope Q_scope.
Local Open Scope string_scope.
Local Open Scope list_scope.

(** ** Python values *)

(** [bytes] objects: a sequence of 8-bit characters. *)
Definition bytes := string.

(** The double quote character, for string literals that contain it. *)
Definition dq : string := String "034"%char EmptyString.

(** What [json.loads] can return: [None], [bool], [int], [float],
    [str], [list] and [dict] (insertion-ordered, string keys). *)
Inductive json : Type :=
| JNull
| JBool (b : bool)
| JInt (z : Z)
| JFloat (f : spec_float)
| JString (s : string)
| JArray (items : list json)
| JObject (fields : list (string * json)).

(** [type(v).__name__] *)
Definition type_name (v : json) : string :=
  match v with
  | JNull => "NoneType"
  | JBool _ => "bool"
  | JInt _ => "int"
  | JFloat _ => "float"
  | JString _ => "str"
  | JArray _ => "list"
  | JObject _ => "dict"
  end.

(** [bool(v)], the truth value that [not v] negates. *)
Definition truthy (v : json) : bool :=
  match v with
  | JNull => false
  | JBool b => b
  | JInt z => negb (z =? 0)%Z
  | JFloat (S754_zero _) => false
  | JFloat _ => true
  | JString s => negb (s =? "")
  | JArray items => match items with [] => false | _ => true end
  | JObject fields => match fields with [] => false | _ => true end
  end.

Definition isinstance_list (v : json) : bool :=
  match v with JArray _ => true | _ => false end.

(** Lookup of a key in a [dict]. *)
Fixpoint dict_lookup (key : string) (fields : list (string * json)) : option json :=
  match fields with
  | [] => None
  | (k, v) :: rest => if k =? key then Some v else dict_lookup key rest
  end.

(** [needle in haystack] on [str]: the substring test. *)
Fixpoint str_contains (needle haystack : string) : bool :=
  if prefix needle haystack then true
  else match haystack with
       | EmptyString => false
       | String _ rest => str_contains needle rest
       end.

(** ** Exceptions *)

(** Subclasses of [requests.RequestException] other than [HTTPError]. *)
Inductive request_failure : Type :=
| ConnectionError          (* refused or reset connections, DNS failures *)
| Timeout                  (* the [timeout=10] bound was exceeded *)
| OtherRequestFailure (name : string).

Inductive type_error : Type :=
| NotIterable (ty : string)       (* argument of type 'ty' is not iterable *)
| BadIndex (ty : string)          (* 'ty' indices must be integers *)
| NotSubscriptable (ty : string).

Inductive py_exc : Type :=
| KeyboardInterrupt                           (* a [BaseException] that is no [Exception] *)
| HTTPError (status_code : Z)                 (* [requests.HTTPError] *)
| RequestException (k : request_failure)
| RateLimitException
| JSONDecodeError (msg : string)              (* a subclass of [ValueError] *)
| AttributeError (ty attr : string)           (* 'ty' object has no attribute 'attr' *)
| TypeError (t : type_error)
| KeyError (key : string)
| ValueError (msg : string) (context : option py_exc)
| OtherException (msg : string).

(** The [isinstance] tests of the [except] clauses. *)
Definition isinstance_HTTPError (e : py_exc) : bool :=
  match e with HTTPError _ => true | _ => false end.

Definition isinstance_RequestException (e : py_exc) : bool :=
  match e with HTTPError _ | RequestException _ => true | _ => false end.

Definition isinstance_RateLimitException (e : py_exc) : bool :=
  match e with RateLimitException => true | _ => false end.

Definition isinstance_JSONDecodeError (e : py_exc) : bool :=
  match e with JSONDecodeError _ => true | _ => false end.

Definition isinstance_ValueError (e : py_exc) : bool :=
  match e with ValueError _ _ | JSONDecodeError _ => true | _ => false end.

Definition isinstance_Exception (e : py_exc) : bool :=
  match e with KeyboardInterrupt => false | _ => true end.

(** ** The records that are logged *)

Record social_media : Type := {
  instagram : json;
  twitter : json;
  youtube : json;
  discord : json;
  tiktok : json;
  facebook : json
}.

(** The dict [extracted_user_info]; Python's [None] is [JNull]. *)
Record extracted_user_info : Type := {
  user_id : json;
  username : json;
  bio : json;
  social : social_media;
  profilepic : json
}.

Inductive log_level : Type := ERROR | WARNING | INFO.

Inductive log_message : Type :=
| HttpErrorEncountered (e : py_exc)
| AttemptFailedRetrying (attempt_number : nat) (delay : Q) (e : py_exc)
| FailedAfterAttempts (attempts : nat) (e : py_exc)
| RateLimitExceeded (e : py_exc)
| UnexpectedError (e : py_exc)
| JsonParsingError
| UnexpectedParsingError (e : py_exc)
| ChannelInfo (channel_info : json)
| UserInfo (info : extracted_user_info).

Definition log_record : Type := log_level * log_message.

(** ** The world and the monad of effects *)

Record world : Type := {
  log : list log_record;        (* what [logging] has emitted, oldest first *)
  slept : list Q;               (* the arguments of [time.sleep], oldest first *)
  requests_sent : nat           (* how many times [requests.get] was called *)
}.

Definition world0 : world := {| log := []; slept := []; requests_sent := 0 |}.

Definition emit (evs : list log_record) (w : world) : world :=
  {| log := log w ++ evs; slept := slept w; requests_sent := requests_sent w |}.

Inductive outcome (A : Type) : Type :=
| Returns (a : A)
| Raises (e : py_exc).
Arguments Returns {A} a.
Arguments Raises {A} e.

Definition Py (A : Type) : Type := world -> outcome A * world.

Definition ret {A} (a : A) : Py A := fun w => (Returns a, w).

Definition raise {A} (e : py_exc) : Py A := fun w => (Raises e, w).

Definition bind {A B} (m : Py A) (k : A -> Py B) : Py B :=
  fun w => match m w with
           | (Returns a, w') => k a w'
           | (Raises e, w') => (Raises e, w')
           end.

Definition lift {A} (o : outcome A) : Py A := fun w => (o, w).

Declare Scope py_scope.
Delimit Scope py_scope with py.
Notation "x <- m ;; k" := (bind m (fun x => k))
  (at level 61, m at next level, right associativity) : py_scope.
Notation "m ;;; k" := (bind m (fun _ => k))
  (at level 61, right associativity) : py_scope.
Local Open Scope py_scope.

(** [try: m  except C1 as e: h1 e  except C2 as e: h2 e ...]: the first
    clause whose class the exception is an instance of handles it, in
    the world the failed body left; with no such clause it propagates. *)
Definition except_clause (A : Type) : Type := (py_exc -> bool) * (py_exc -> Py A).

Fixpoint dispatch {A} (clauses : list (except_clause A)) (e : py_exc) : Py A :=
  match clauses with
  | [] => raise e
  | (is_instance, handler) :: rest =>
      if is_instance e then handler e else dispatch rest e
  end.

Definition try_except {A} (m : Py A) (clauses : list (except_clause A)) : Py A :=
  fun w => match m w with
           | (Returns a, w') => (Returns a, w')
           | (Raises e, w') => dispatch clauses e w'
           end.

(** A [for] loop whose body may [return]: [Next] goes on to the next
    element, [Return r] leaves the function with [r]. *)
Inductive flow (R : Type) : Type :=
| Next
| Return (r : R).
Arguments Next {R}.
Arguments Return {R} r.

Fixpoint for_in {A R} (xs : list A) (body : A -> Py (flow R)) : Py (flow R) :=
  match xs with
  | [] => ret Next
  | x :: rest =>
      f <- body x ;;
      match f with
      | Next => for_in rest body
      | Return r => ret (Return r)
      end
  end.

(** [range(n)] *)
Definition range (n : nat) : list nat := seq 0 n.

Definition logging (level : log_level) (m : log_message) : Py unit :=
  fun w => (Returns tt, emit [(level, m)] w).

(** [time.sleep(seconds)]: a negative length is refused with a
    [ValueError], whose context is the exception [handling] that is
    being handled where the call stands. *)
Definition time_sleep (handling : option py_exc) (seconds : Q) : Py unit :=
  fun w =>
    if Qle_bool 0 seconds
    then (Returns tt,
          {| log := log w; slept := slept w ++ [seconds];
             requests_sent := requests_sent w |})
    else (Raises (ValueError "sleep length must be non-negative" handling), w).

(** ** Module constants *)

Definition CALLS : nat := 10.
Definition PERIOD : nat := 60.
Definition RETRY_TIMES : nat := 3.
Definition RETRY_WAIT : nat := 5.

(** ** get_html_content *)

(** A [requests.Response], as far as the script reads it. *)
Record response : Type := {
  status_code : Z;
  content : bytes
}.

(** What one call of [requests.get] does: it answers or it raises. *)
Inductive http_result : Type :=
| Responds (r : response)
| GetRaises (e : py_exc).

(** [Response.raise_for_status]: an [HTTPError] for a 4xx or 5xx status. *)
Definition raise_for_status (r : response) : Py unit :=
  if ((400 <=? status_code r) && (status_code r <? 600))%Z
  then raise (HTTPError (status_code r))
  else ret tt.

Section Fetch.

(** The upstream: what the [n]-th call of [requests.get] (counted from
    0 over the whole run) does for the given [api_key] and [url]. *)
Variable requests_get_result : string -> string -> nat -> http_result.

Definition requests_get (api_key url : string) : Py response :=
  fun w =>
    let w' := {| log := log w; slept := slept w;
                 requests_sent := S (requests_sent w) |} in
    match requests_get_result api_key url (requests_sent w) with
    | Responds r => (Returns r, w')
    | GetRaises e => (Raises e, w')
    end.

(** The body of the [for attempt in range(RETRY_TIMES)] loop. *)
Definition attempt_body (api_key url : string) (delay : Q) (attempt : nat)
  : Py (flow (option bytes)) :=
  try_except
    (resp <- requests_get api_key url ;;
     raise_for_status resp ;;;
     ret (Return (Some (content resp))))
    [ (isinstance_HTTPError,
       fun e => logging ERROR (HttpErrorEncountered e) ;;;
                ret (Return None));
      (isinstance_RequestException,
       fun e => if (attempt <? RETRY_TIMES - 1)%nat
                then logging WARNING (AttemptFailedRetrying (attempt + 1) delay e) ;;;
                     time_sleep (Some e) delay ;;;
                     ret Next
                else logging ERROR (FailedAfterAttempts RETRY_TIMES e) ;;;
                     ret (Return None));
      (isinstance_RateLimitException,
       fun e => logging ERROR (RateLimitExceeded e) ;;;
                ret (Return None));
      (isinstance_Exception,
       fun e => logging ERROR (UnexpectedError e) ;;;
                ret (Return None)) ].

(** The function as it is written: a loop that falls through returns
    [None].  The decorators [sleep_and_retry] and [limits(calls=CALLS,
    period=PERIOD)] are functions of the [ratelimit] package: they
    hold a call back and then hand the result of this body through. *)
Definition get_html_content (api_key url : string) (delay : Q)
  : Py (option bytes) :=
  f <- for_in (range RETRY_TIMES) (attempt_body api_key url delay) ;;
  match f with
  | Return r => ret r
  | Next => ret None
  end.

End Fetch.

(** The default of the parameter [delay]. *)
Definition default_delay : Q := 1%Q.

(** ** parse_html_to_json *)

(** The tree [BeautifulSoup] builds, as far as [soup.body.text] reads it. *)
Inductive node : Type :=
| NavigableString (s : string)
| Comment (s : string)
| Tag (name : string) (contents : list node).

Fixpoint first_some {A B} (f : A -> option B) (xs : list A) : option B :=
  match xs with
  | [] => None
  | x :: rest => match f x with
                 | Some b => Some b
                 | None => first_some f rest
                 end
  end.

(** [find(name)]: the first tag of that name, in document order. *)
Fixpoint find (name : string) (n : node) : option node :=
  match n with
  | Tag nm contents =>
      if nm =? name then Some n else first_some (find name) contents
  | _ => None
  end.

(** [soup.body], [None] when the document has no [body] tag. *)
Definition soup_body (soup : list node) : option node :=
  first_some (find "body") soup.

(** [tag.text]: the strings below the tag, joined; comments are left out. *)
Fixpoint get_text (n : node) : string :=
  match n with
  | NavigableString s => s
  | Comment _ => ""
  | Tag _ contents => String.concat "" (map get_text contents)
  end.

(** [x.text] where [x] is [soup.body]. *)
Definition getattr_text (x : option node) : Py string :=
  match x with
  | Some tag => ret (get_text tag)
  | None => raise (AttributeError "NoneType" "text")
  end.

Section Parse.

(** [BeautifulSoup(html_content, 'html.parser')] and [json.loads]. *)
Variable BeautifulSoup : bytes -> outcome (list node).
Variable json_loads : string -> outcome json.

Definition parse_html_to_json (html_content : bytes) : Py json :=
  try_except
    (soup <- lift (BeautifulSoup html_content) ;;
     text <- getattr_text (soup_body soup) ;;
     json_data <- lift (json_loads text) ;;
     ret json_data)
    [ (isinstance_JSONDecodeError,
       fun jde => logging ERROR JsonParsingError ;;; raise jde);
      (isinstance_Exception,
       fun e => logging ERROR (UnexpectedParsingError e) ;;; raise e) ].

End Parse.

(** ** extract_user_info *)

(** ['data' in v] *)
Definition py_contains (key : string) (v : json) : Py bool :=
  match v with
  | JObject fields =>
      ret (match dict_lookup key fields with Some _ => true | None => false end)
  | JArray items =>
      ret (existsb (fun x => match x with JString s => s =? key | _ => false end) items)
  | JString s => ret (str_contains key s)
  | _ => raise (TypeError (NotIterable (type_name v)))
  end.

(** [v['data']] *)
Definition py_getitem (v : json) (key : string) : Py json :=
  match v with
  | JObject fields =>
      match dict_lookup key fields with
      | Some x => ret x
      | None => raise (KeyError key)
      end
  | JArray _ | JString _ => raise (TypeError (BadIndex (type_name v)))
  | _ => raise (TypeError (NotSubscriptable (type_name v)))
  end.

(** [v.get(key, default)]: only a [dict] has the method. *)
Definition py_get (v : json) (key : string) (default : json) : Py json :=
  match v with
  | JObject fields =>
      ret (match dict_lookup key fields with Some x => x | None => default end)
  | _ => raise (AttributeError (type_name v) "get")
  end.

Definition invalid_data_message : string :=
  "Invalid or missing " ++ dq ++ "data" ++ dq ++ " field in JSON data.".

(** The body of the [for item in json_data['data']] loop. *)
Definition extract_item (item : json) : Py (flow unit) :=
  channel_info <- py_get item "channel" (JObject []) ;;
  user_info <- py_get channel_info "user" (JObject []) ;;
  v_id <- py_get user_info "id" JNull ;;
  v_username <- py_get user_info "username" JNull ;;
  v_bio <- py_get user_info "bio" JNull ;;
  v_instagram <- py_get user_info "instagram" JNull ;;
  v_twitter <- py_get user_info "twitter" JNull ;;
  v_youtube <- py_get user_info "youtube" JNull ;;
  v_discord <- py_get user_info "discord" JNull ;;
  v_tiktok <- py_get user_info "tiktok" JNull ;;
  v_facebook <- py_get user_info "facebook" JNull ;;
  v_profilepic <- py_get user_info "profilepic" JNull ;;
  let extracted :=
    {| user_id := v_id; username := v_username; bio := v_bio;
       social := {| instagram := v_instagram; twitter := v_twitter;
                    youtube := v_youtube; discord := v_discord;
                    tiktok := v_tiktok; facebook := v_facebook |};
       profilepic := v_profilepic |} in
  logging INFO (ChannelInfo channel_info) ;;;
  logging INFO (UserInfo extracted) ;;;
  ret Next.

(** [for item in v]: the elements of a [list]. *)
Definition iter_list (v : json) : list json :=
  match v with JArray items => items | _ => [] end.

Definition extract_user_info (json_data : json) : Py unit :=
  try_except
    (c_missing <- (if negb (truthy json_data) then ret true
                   else present <- py_contains "data" json_data ;;
                        if negb present then ret true
                        else data <- py_getitem json_data "data" ;;
                             ret (negb (isinstance_list data))) ;;
     (if c_missing : bool
      then raise (ValueError invalid_data_message None)
      else ret tt) ;;;
     data <- py_getitem json_data "data" ;;
     for_in (iter_list data) extract_item ;;;
     ret tt)
    [ (isinstance_ValueError,
       fun ve => raise (ValueError "Data extraction error: {ve}" (Some ve)));
      (isinstance_Exception,
       fun e => raise (ValueError "Unexpected error during data extraction: {e}" (Some e))) ].

(** ** main *)

Definition api_key : string := "6401ffb8-e4d8-4449-b647-c0d9e59638cf".
Definition target_url : string := "https://kick.com/stream/featured-livestreams/en".

(** [bool(html_content)] for [bytes] or [None]. *)
Definition truthy_content (c : option bytes) : bool :=
  match c with
  | None => false
  | Some b => negb (b =? "")
  end.

(** The [bytes] that a truthy [html_content] is. *)
Definition as_bytes (c : option bytes) : bytes :=
  match c with
  | Some b => b
  | None => ""
  end.

Section Main.

Variable requests_get_result : string -> string -> nat -> http_result.
Variable BeautifulSoup : bytes -> outcome (list node).
Variable json_loads : string -> outcome json.

Definition main : Py unit :=
  try_except
    (html_content <- get_html_content requests_get_result api_key target_url default_delay ;;
     (if negb (truthy_content html_content)
      then raise (ValueError "Failed to retrieve HTML content." None)
      else ret tt) ;;;
     json_data <- parse_html_to_json BeautifulSoup json_loads (as_bytes html_content) ;;
     (if negb (truthy json_data)
      then raise (ValueError "Failed to parse HTML content to JSON." None)
      else ret tt) ;;;
     extract_user_info json_data)
    [ (isinstance_Exception,
       fun e => raise (ValueError "An error occurred: {e}" (Some e))) ].

End Main.

(** ** Reference instances of the library calls

    Executable stand-ins for [BeautifulSoup(_, 'html.parser')] and
    [json.loads], used to run the pipeline on concrete bodies.  They
    cover a fragment: markup made of start tags, end tags and character
    data (no character references, no raw-text elements), and JSON
    without fractions, exponents or [\u] escapes (such a literal is
    rejected here, unlike in [json.loads]).  Every statement that
    quantifies over bodies is made over arbitrary library functions,
    not over these. *)

Module Reference.

Definition lower (c : ascii) : ascii :=
  let n := nat_of_ascii c in
  if ((65 <=? n) && (n <=? 90))%nat then ascii_of_nat (n + 32) else c.

Fixpoint lowercase (s : string) : string :=
  match s with
  | EmptyString => EmptyString
  | String c rest => String (lower c) (lowercase rest)
  end.

Definition is_space (c : ascii) : bool :=
  let n := nat_of_ascii c in
  ((n =? 32) || (n =? 9) || (n =? 10) || (n =? 13))%nat.

Definition is_letter (c : ascii) : bool :=
  let n := nat_of_ascii (lower c) in ((97 <=? n) && (n <=? 122))%nat.

Inductive token : Type :=
| TStart (name : string)
| TEnd (name : string)
| TData (s : string).

(** The name of a tag: up to the first space or slash. *)
Fixpoint tag_name (s : string) : string :=
  match s with
  | EmptyString => EmptyString
  | String c rest =>
      if is_space c || (c =? "/")%char then EmptyString
      else String (lower c) (tag_name rest)
  end.

Fixpoint ends_with_slash (s : string) : bool :=
  match s with
  | EmptyString => false
  | String c EmptyString => (c =? "/")%char
  | String _ rest => ends_with_slash rest
  end.

(** The tokens of what stood between [<] and [>]. *)
Definition markup_tokens (inner : string) : list token :=
  match inner with
  | String "/" rest => [TEnd (tag_name rest)]
  | String "!" _ | String "?" _ => []
  | _ => if ends_with_slash inner
         then [TStart (tag_name inner); TEnd (tag_name inner)]
         else [TStart (tag_name inner)]
  end.

Definition data_tokens (s : string) : list token :=
  match s with
  | EmptyString => []
  | _ => [TData s]
  end.

Inductive lexer_state : Type :=
| InData (acc : string)
| InMarkup (acc : string).

Definition snoc (s : string) (c : ascii) : string := s ++ String c EmptyString.

Fixpoint lex (st : lexer_state) (s : string) : list token :=
  match s with
  | EmptyString =>
      match st with
      | InData acc => data_tokens acc
      | InMarkup acc => data_tokens ("<" ++ acc)
      end
  | String c rest =>
      match st with
      | InData acc =>
          if (c =? "<")%char then data_tokens acc ++ lex (InMarkup "") rest
          else lex (InData (snoc acc c)) rest
      | InMarkup acc =>
          if (c =? ">")%char then markup_tokens acc ++ lex (InData "") rest
          else match acc with
               | EmptyString =>
                   if is_letter c || (c =? "/")%char || (c =? "!")%char || (c =? "?")%char
                   then lex (InMarkup (snoc acc c)) rest
                   else lex (InData (snoc "<" c)) rest
               | _ => lex (InMarkup (snoc acc c)) rest
               end
      end
  end.

(** The open tags, innermost first, each with its children so far
    (newest first), and the children of the document (newest first). *)
Definition builder : Type := list (string * list node) * list node.

Definition add_node (n : node) (b : builder) : builder :=
  match fst b with
  | [] => ([], n :: snd b)
  | (nm, kids) :: outer => ((nm, n :: kids) :: outer, snd b)
  end.

Definition close_top (b : builder) : builder :=
  match fst b with
  | [] => b
  | (nm, kids) :: outer => add_node (Tag nm (rev kids)) (outer, snd b)
  end.

Fixpoint close_n (n : nat) (b : builder) : builder :=
  match n with
  | O => b
  | S k => close_n k (close_top b)
  end.

Fixpoint depth_of (name : string) (open : list (string * list node)) : option nat :=
  match open with
  | [] => None
  | (nm, _) :: outer =>
      if nm =? name then Some 0
      else option_map S (depth_of name outer)
  end.

Definition void_elements : list string :=
  ["area"; "base"; "br"; "col"; "embed"; "hr"; "img"; "input"; "link";
   "meta"; "param"; "source"; "track"; "wbr"].

Definition feed (b : builder) (t : token) : builder :=
  match t with
  | TData s => add_node (NavigableString s) b
  | TStart name =>
      if existsb (String.eqb name) void_elements
      then add_node (Tag name []) b
      else ((name, []) :: fst b, snd b)
  | TEnd name =>
      match depth_of name (fst b) with
      | Some d => close_n (S d) b
      | None => b
      end
  end.

Definition BeautifulSoup (markup : bytes) : outcome (list node) :=
  let b := fold_left feed (lex (InData "") markup) ([], []) in
  Returns (rev (snd (close_n (List.length (fst b)) b))).


(** *** json.loads *)

Fixpoint skip_ws (s : string) : string :=
  match s with
  | String c rest => if is_space c then skip_ws rest else s
  | EmptyString => s
  end.

Definition digit_of (c : ascii) : option Z :=
  let n := nat_of_ascii c in
  if ((48 <=? n) && (n <=? 57))%nat then Some (Z.of_nat (n - 48)) else None.

(** The digits at the head of [s], as a number, and what follows them. *)
Fixpoint take_digits (acc : Z) (s : string) : Z * string :=
  match s with
  | String c rest =>
      match digit_of c with
      | Some d => take_digits (10 * acc + d) rest
      | None => (acc, s)
      end
  | EmptyString => (acc, s)
  end.

Definition starts_fraction (s : string) : bool :=
  match s with
  | String c _ => (c =? ".")%char || (c =? "e")%char || (c =? "E")%char
  | EmptyString => false
  end.

(** An integer literal without its sign: [0] or a digit sequence
    that does not start with [0]. *)
Definition decode_nat (s : string) : option (Z * string) :=
  match s with
  | String "0" rest => if starts_fraction rest then None else Some (0%Z, rest)
  | String c _ =>
      match digit_of c with
      | Some _ => let (n, rest) := take_digits 0 s in
                  if starts_fraction rest then None else Some (n, rest)
      | None => None
      end
  | EmptyString => None
  end.

Definition unescape (c : ascii) : option ascii :=
  match c with
  | "034"%char => Some "034"%char
  | "\"%char => Some "\"%char
  | "/"%char => Some "/"%char
  | "b"%char => Some "008"%char
  | "f"%char => Some "012"%char
  | "n"%char => Some "010"%char
  | "r"%char => Some "013"%char
  | "t"%char => Some "009"%char
  | _ => None
  end.

(** A string literal after its opening quote, up to the closing one. *)
Fixpoint decode_string (acc : string) (s : string) : option (string * string) :=
  match s with
  | EmptyString => None
  | String c rest =>
      if (c =? "034")%char then Some (acc, rest)
      else if (c =? "\")%char then
        match rest with
        | String e rest' =>
            match unescape e with
            | Some x => decode_string (snoc acc x) rest'
            | None => None
            end
        | EmptyString => None
        end
      else if (nat_of_ascii c <? 32)%nat then None
      else decode_string (snoc acc c) rest
  end.

(** [d[key] = v]: a key seen again keeps its place and takes the new value. *)
Fixpoint dict_set (key : string) (v : json) (fields : list (string * json))
  : list (string * json) :=
  match fields with
  | [] => [(key, v)]
  | (k, x) :: rest =>
      if k =? key then (k, v) :: rest else (k, x) :: dict_set key v rest
  end.

Fixpoint decode_value (fuel : nat) (s : string) : option (json * string) :=
  match fuel with
  | O => None
  | S fuel' =>
      match s with
      | String "n" (String "u" (String "l" (String "l" rest))) => Some (JNull, rest)
      | String "t" (String "r" (String "u" (String "e" rest))) => Some (JBool true, rest)
      | String "f" (String "a" (String "l" (String "s" (String "e" rest)))) =>
          Some (JBool false, rest)
      | String "N" (String "a" (String "N" rest)) => Some (JFloat S754_nan, rest)
      | String "I" (String "n" (String "f" (String "i" (String "n"
          (String "i" (String "t" (String "y" rest))))))) =>
          Some (JFloat (S754_infinity false), rest)
      | String "-" (String "I" (String "n" (String "f" (String "i" (String "n"
          (String "i" (String "t" (String "y" rest)))))))) =>
          Some (JFloat (S754_infinity true), rest)
      | String "034" rest =>
          match decode_string "" rest with
          | Some (str, rest') => Some (JString str, rest')
          | None => None
          end
      | String "-" rest =>
          match decode_nat rest with
          | Some (n, rest') => Some (JInt (- n), rest')
          | None => None
          end
      | String "[" rest =>
          match skip_ws rest with
          | String "]" rest' => Some (JArray [], rest')
          | rest' => decode_items fuel' [] rest'
          end
      | String "{" rest =>
          match skip_ws rest with
          | String "}" rest' => Some (JObject [], rest')
          | rest' => decode_members fuel' [] rest'
          end
      | _ =>
          match decode_nat s with
          | Some (n, rest) => Some (JInt n, rest)
          | None => None
          end
      end
  end

(** The elements of an array, from the start of an element on. *)
with decode_items (fuel : nat) (acc : list json) (s : string) : option (json * string) :=
  match fuel with
  | O => None
  | S fuel' =>
      match decode_value fuel' s with
      | Some (v, rest) =>
          match skip_ws rest with
          | String "," rest' => decode_items fuel' (acc ++ [v]) (skip_ws rest')
          | String "]" rest' => Some (JArray (acc ++ [v]), rest')
          | _ => None
          end
      | None => None
      end
  end

(** The members of an object, from the opening quote of a key on. *)
with decode_members (fuel : nat) (acc : list (string * json)) (s : string)
  : option (json * string) :=
  match fuel with
  | O => None
  | S fuel' =>
      match s with
      | String "034" rest =>
          match decode_string "" rest with
          | Some (key, rest1) =>
              match skip_ws rest1 with
              | String ":" rest2 =>
                  match decode_value fuel' (skip_ws rest2) with
                  | Some (v, rest3) =>
                      match skip_ws rest3 with
                      | String "," rest4 =>
                          decode_members fuel' (dict_set key v acc) (skip_ws rest4)
                      | String "}" rest4 => Some (JObject (dict_set key v acc), rest4)
                      | _ => None
                      end
                  | None => None
                  end
              | _ => None
              end
          | None => None
          end
      | _ => None
      end
  end.

(** Along a chain of calls every second one consumes a character, so
    twice the length of the text is fuel enough. *)
Definition json_loads (s : string) : outcome json :=
  match decode_value (2 * String.length s + 2) (skip_ws s) with
  | Some (v, rest) =>
      match skip_ws rest with
      | EmptyString => Returns v
      | _ => Raises (JSONDecodeError "Extra data")
      end
  | None => Raises (JSONDecodeError "Expecting value")
  end.

End Reference.

(** * The vocabulary of the statements *)

(** ** The fetch stage *)

(** A transient failure: a [RequestException] that is no [HTTPError]. *)
Definition is_transient (e : py_exc) : bool :=
  isinstance_RequestException e && negb (isinstance_HTTPError e).

(** A response that [raise_for_status] lets through. *)
Definition status_ok (r : response) : bool :=
  negb ((400 <=? status_code r) && (status_code r <? 600))%Z.

(** The warnings of the failed attempts [first], [first + 1], ... *)
Fixpoint retry_warnings (delay : Q) (first : nat) (fs : list py_exc) : list log_record :=
  match fs with
  | [] => []
  | e :: rest =>
      (WARNING, AttemptFailedRetrying (first + 1) delay e)
        :: retry_warnings delay (S first) rest
  end.

(** The world after the failed attempts [fs], each followed by a sleep. *)
Definition after_failures (delay : Q) (first : nat) (fs : list py_exc) (w : world) : world :=
  {| log := log w ++ retry_warnings delay first fs;
     slept := slept w ++ repeat delay (List.length fs);
     requests_sent := requests_sent w + List.length fs |}.

(** The world after one more request and the given log records. *)
Definition after_request (evs : list log_record) (w : world) : world :=
  {| log := log w ++ evs; slept := slept w; requests_sent := S (requests_sent w) |}.

(** An exception that one of the last two clauses handles, or a
    [HTTPError] that [requests.get] itself raised. *)
Definition terminal_record (e : py_exc) : log_message :=
  if isinstance_HTTPError e then HttpErrorEncountered e
  else if isinstance_RateLimitException e then RateLimitExceeded e
  else UnexpectedError e.

(** [fs] are the exceptions of the first attempts of the run that
    starts in [w], all of them transient. *)
Definition transient_prefix upstream (key url : string) (w : world) (fs : list py_exc) : Prop :=
  Forall (fun e => is_transient e = true) fs /\
  forall i e, nth_error fs i = Some e ->
              upstream key url (requests_sent w + i) = GetRaises e.

(** The body [<html><body>{"data":[]}</body></html>]. *)
Definition example_body : bytes :=
  ("<html><body>{" ++ dq ++ "data" ++ dq ++ ":[]}</body></html>")%string.

(** An upstream that answers the calls with [results], in order, and
    every later call with [then_on]. *)
Definition upstream_of (results : list http_result) (then_on : http_result)
  : string -> string -> nat -> http_result :=
  fun _ _ n => nth n results then_on.

Definition ok_response (body : bytes) : http_result :=
  Responds {| status_code := 200; content := body |}.

Definition status_response (code : Z) : http_result :=
  Responds {| status_code := code; content := "" |}.

Definition timeout_failure : http_result := GetRaises (RequestException Timeout).

(** The ways the fetch stage fails: after some transient failures
    within the budget, an attempt is answered with a 4xx or 5xx status,
    or raises the rate-limit exception, or raises any other exception
    that is not a transient one; or the budget is exhausted. *)
Inductive fetch_failure upstream (key url : string) (w : world) : Prop :=
| HttpStatusFailure (fs : list py_exc) (r : response) :
    transient_prefix upstream key url w fs ->
    List.length fs < RETRY_TIMES ->
    upstream key url (requests_sent w + List.length fs) = Responds r ->
    status_ok r = false ->
    fetch_failure upstream key url w
| BudgetExhausted (fs : list py_exc) :
    transient_prefix upstream key url w fs ->
    List.length fs = RETRY_TIMES ->
    fetch_failure upstream key url w
| RateLimitSignal (fs : list py_exc) :
    transient_prefix upstream key url w fs ->
    List.length fs < RETRY_TIMES ->
    upstream key url (requests_sent w + List.length fs) = GetRaises RateLimitException ->
    fetch_failure upstream key url w
| UnexpectedException (fs : list py_exc) (e : py_exc) :
    transient_prefix upstream key url w fs ->
    List.length fs < RETRY_TIMES ->
    upstream key url (requests_sent w + List.length fs) = GetRaises e ->
    is_transient e = false ->
    isinstance_Exception e = true ->
    fetch_failure upstream key url w.

(** ** The parser *)

(** What the body of the [try] computes. *)
Definition decoded (BeautifulSoup : bytes -> outcome (list node))
  (json_loads : string -> outcome json) (html_content : bytes) : outcome json :=
  match BeautifulSoup html_content with
  | Raises e => Raises e
  | Returns soup =>
      match soup_body soup with
      | None => Raises (AttributeError "NoneType" "text")
      | Some tag => json_loads (get_text tag)
      end
  end.

(** What the handlers log for the exception they re-raise. *)
Definition parse_failure_records (e : py_exc) : list log_record :=
  if isinstance_JSONDecodeError e then [(ERROR, JsonParsingError)]
  else if isinstance_Exception e then [(ERROR, UnexpectedParsingError e)]
  else [].

(** ** The extractor *)

(** [fields.get(key, default)] *)
Definition get_or (fields : list (string * json)) (key : string) (default : json) : json :=
  match dict_lookup key fields with
  | Some x => x
  | None => default
  end.

(** The record that is read off the fields of [user_info]. *)
Definition record_of (fields : list (string * json)) : extracted_user_info :=
  {| user_id := get_or fields "id" JNull;
     username := get_or fields "username" JNull;
     bio := get_or fields "bio" JNull;
     social := {| instagram := get_or fields "instagram" JNull;
                  twitter := get_or fields "twitter" JNull;
                  youtube := get_or fields "youtube" JNull;
                  discord := get_or fields "discord" JNull;
                  tiktok := get_or fields "tiktok" JNull;
                  facebook := get_or fields "facebook" JNull |};
     profilepic := get_or fields "profilepic" JNull |}.

(** An element of [data], read without effects: its channel object and
    its record when the element, its [channel] and the channel's [user]
    are objects (a missing [channel] or [user] counts as the empty
    object), and otherwise the value that has no [get]. *)
Definition read_item (item : json) : (json * extracted_user_info) + json :=
  match item with
  | JObject fields =>
      match get_or fields "channel" (JObject []) with
      | JObject channel_fields =>
          match get_or channel_fields "user" (JObject []) with
          | JObject user_fields =>
              inl (JObject channel_fields, record_of user_fields)
          | other => inr other
          end
      | other => inr other
      end
  | other => inr other
  end.

Definition item_records (channel_info : json) (info : extracted_user_info) : list log_record :=
  [(INFO, ChannelInfo channel_info); (INFO, UserInfo info)].

(** The records of the elements up to the first one that cannot be
    read, and the value that could not be read, if any. *)
Fixpoint read_items (items : list json) : list log_record * option json :=
  match items with
  | [] => ([], None)
  | item :: rest =>
      match read_item item with
      | inl (channel_info, info) =>
          let (evs, stop) := read_items rest in
          (item_records channel_info info ++ evs, stop)
      | inr other => ([], Some other)
      end
  end.

(** The two errors that [extract_user_info] raises. *)
Definition invalid_shape_error : py_exc :=
  ValueError "Data extraction error: {ve}" (Some (ValueError invalid_data_message None)).

Definition unexpected_extraction_error (e : py_exc) : py_exc :=
  ValueError "Unexpected error during data extraction: {e}" (Some e).

(** The outcome of the test [not json_data or 'data' not in json_data
    or not isinstance(json_data['data'], list)]. *)
Inductive shape_check : Type :=
| ShapeAccepted (items : list json)
| ShapeRejected
| ShapeCheckRaises (e : py_exc).

Definition check_shape (json_data : json) : shape_check :=
  if negb (truthy json_data) then ShapeRejected
  else match json_data with
       | JObject fields =>
           match dict_lookup "data" fields with
           | Some (JArray items) => ShapeAccepted items
           | _ => ShapeRejected
           end
       | JArray items =>
           if existsb (fun x => match x with JString s => s =? "data" | _ => false end) items
           then ShapeCheckRaises (TypeError (BadIndex "list"))
           else ShapeRejected
       | JString s =>
           if str_contains "data" s
           then ShapeCheckRaises (TypeError (BadIndex "str"))
           else ShapeRejected
       | other => ShapeCheckRaises (TypeError (NotIterable (type_name other)))
       end.

(** The result of [extract_user_info] and the records it logs. *)
Definition extraction (json_data : json) : outcome unit * list log_record :=
  match check_shape json_data with
  | ShapeRejected => (Raises invalid_shape_error, [])
  | ShapeCheckRaises e => (Raises (unexpected_extraction_error e), [])
  | ShapeAccepted items =>
      (match snd (read_items items) with
       | None => Returns tt
       | Some other =>
           Raises (unexpected_extraction_error (AttributeError (type_name other) "get"))
       end,
       fst (read_items items))
  end.

(** The document is an object with a key ["data"] bound to a list. *)
Definition has_data_sequence (json_data : json) : bool :=
  match json_data with
  | JObject fields =>
      match dict_lookup "data" fields with
      | Some (JArray _) => true
      | _ => false
      end
  | _ => false
  end.

(** The user records among the logged ones, in the order of the log. *)
Fixpoint logged_user_infos (evs : list log_record) : list extracted_user_info :=
  match evs with
  | [] => []
  | (_, UserInfo info) :: rest => info :: logged_user_infos rest
  | _ :: rest => logged_user_infos rest
  end.

(** The record with every field absent. *)
Definition all_absent : extracted_user_info :=
  {| user_id := JNull; username := JNull; bio := JNull;
     social := {| instagram := JNull; twitter := JNull; youtube := JNull;
                  discord := JNull; tiktok := JNull; facebook := JNull |};
     profilepic := JNull |}.

(** The element can be read: it is an object, and so are its
    [channel] and that channel's [user] where they are present. *)
Definition readable (item : json) : Prop :=
  exists channel_info info, read_item item = inl (channel_info, info).

Definition record_of_item (item : json) (info : extracted_user_info) : Prop :=
  exists channel_info, read_item item = inl (channel_info, info).

Definition is_object (v : json) : bool :=
  match v with JObject _ => true | _ => false end.

(** ** The pipeline *)

(** The error that the handler of [main] raises for the exception [e]
    it caught: always the same class and message, [e] as its context. *)
Definition generic_error (e : py_exc) : py_exc :=
  ValueError "An error occurred: {e}" (Some e).

Definition retrieve_error : py_exc := ValueError "Failed to retrieve HTML content." None.
Definition parse_error : py_exc := ValueError "Failed to parse HTML content to JSON." None.

(** What [main] makes of an outcome of its [try] body. *)
Definition surfaced {A} (o : outcome A) : outcome A :=
  match o with
  | Returns a => Returns a
  | Raises e => if isinstance_Exception e then Raises (generic_error e) else Raises e
  end.

(** The rest of [main] once the fetch has returned [c]: its outcome
    and the records it logs.  It reads neither the upstream nor the
    world. *)
Definition after_fetch (BeautifulSoup : bytes -> outcome (list node))
  (json_loads : string -> outcome json) (c : option bytes)
  : outcome unit * list log_record :=
  if negb (truthy_content c) then (Raises (generic_error retrieve_error), [])
  else match decoded BeautifulSoup json_loads (as_bytes c) with
       | Raises e => (surfaced (Raises e), parse_failure_records e)
       | Returns json_data =>
           if negb (truthy json_data) then (Raises (generic_error parse_error), [])
           else (surfaced (fst (extraction json_data)), snd (extraction json_data))
       end.

(** ** Concrete bodies and documents *)


Definition not_json_body : bytes := "<html><body>not json</body></html>".



(** The body [<html><body>{}</body></html>], whose text decodes to the
    empty object. *)
Definition empty_object_body : bytes := "<html><body>{}</body></html>".

(** The exception that a run of [main] raises, on the reference
    instances of the libraries and from the empty world. *)
Definition run_main upstream : outcome unit :=
  fst (main upstream Reference.BeautifulSoup Reference.json_loads world0).

Definition data_not_a_list_body : bytes :=
  ("<html><body>{" ++ dq ++ "data" ++ dq ++ ":" ++ dq ++ "not-a-list" ++ dq
     ++ "}</body></html>")%string.

Definition q (s : string) : string := dq ++ s ++ dq.

(** The body [<html><body>{"data":[{"channel":{"user":{"id":"1",
    "username":"a"}}}]}</body></html>]. *)
Definition one_user_body : bytes :=
  ("<html><body>{" ++ q "data" ++ ":[{" ++ q "channel" ++ ":{" ++ q "user" ++ ":{"
     ++ q "id" ++ ":" ++ q "1" ++ "," ++ q "username" ++ ":" ++ q "a"
     ++ "}}}]}</body></html>")%string.

(** ** The shapes of an attempt and of a run *)

Definition sleep_refused (e : py_exc) : py_exc :=
  ValueError "sleep length must be non-negative" (Some e).

(** Why the attempt [attempt] gives up in the world [w], with the
    message of its error record: the answer has a 4xx or 5xx status;
    or [requests.get] raises an [Exception] that is not transient; or
    it fails transiently at the last attempt of the budget. *)
Definition gave_up upstream (key url : string) (attempt : nat) (w : world)
  (m : log_message) : Prop :=
  (exists r, upstream key url (requests_sent w) = Responds r /\
             status_ok r = false /\
             m = HttpErrorEncountered (HTTPError (status_code r))) \/
  (exists e, upstream key url (requests_sent w) = GetRaises e /\
             is_transient e = false /\
             isinstance_Exception e = true /\
             m = terminal_record e) \/
  (exists e, upstream key url (requests_sent w) = GetRaises e /\
             is_transient e = true /\
             RETRY_TIMES - 1 <= attempt /\
             m = FailedAfterAttempts RETRY_TIMES e).

(** What one pass through the body of the loop can do, in the world
    [w]: return the content of a good answer; give up with an error
    record; go on to the next attempt after a warning and a sleep; or
    raise, either the exception of [requests.get] that no clause
    handles, or the refusal of [time.sleep]. *)
Inductive attempt_step upstream (key url : string) (delay : Q) (attempt : nat) (w : world)
  : outcome (flow (option bytes)) * world -> Prop :=
| StepAnswered (r : response) :
    upstream key url (requests_sent w) = Responds r ->
    status_ok r = true ->
    attempt_step upstream key url delay attempt w
      (Returns (Return (Some (content r))), after_request [] w)
| StepGaveUp (m : log_message) :
    gave_up upstream key url attempt w m ->
    attempt_step upstream key url delay attempt w
      (Returns (Return None), after_request [(ERROR, m)] w)
| StepRetry (e : py_exc) :
    upstream key url (requests_sent w) = GetRaises e ->
    is_transient e = true ->
    attempt < RETRY_TIMES - 1 ->
    (0 <= delay)%Q ->
    attempt_step upstream key url delay attempt w
      (Returns Next, after_failures delay attempt [e] w)
| StepInterrupted (e : py_exc) :
    upstream key url (requests_sent w) = GetRaises e ->
    isinstance_Exception e = false ->
    attempt_step upstream key url delay attempt w
      (Raises e, after_request [] w)
| StepSleepRefused (e : py_exc) :
    upstream key url (requests_sent w) = GetRaises e ->
    is_transient e = true ->
    (delay < 0)%Q ->
    attempt_step upstream key url delay attempt w
      (Raises (sleep_refused e),
       after_request [(WARNING, AttemptFailedRetrying (attempt + 1) delay e)] w).

(** What a whole call of [get_html_content] can do from the world [w]:
    after the transient failures [fs], fewer than the budget, the next
    attempt is answered, or gives up, or is interrupted; or the first
    sleep is refused. *)
Inductive fetch_run upstream (key url : string) (delay : Q) (w : world)
  : outcome (option bytes) * world -> Prop :=
| RunAnswered (fs : list py_exc) (r : response) :
    transient_prefix upstream key url w fs ->
    List.length fs < RETRY_TIMES ->
    upstream key url (requests_sent w + List.length fs) = Responds r ->
    status_ok r = true ->
    fetch_run upstream key url delay w
      (Returns (Some (content r)), after_request [] (after_failures delay 0 fs w))
| RunGaveUp (fs : list py_exc) (m : log_message) :
    transient_prefix upstream key url w fs ->
    List.length fs < RETRY_TIMES ->
    gave_up upstream key url (List.length fs) (after_failures delay 0 fs w) m ->
    fetch_run upstream key url delay w
      (Returns None, after_request [(ERROR, m)] (after_failures delay 0 fs w))
| RunInterrupted (fs : list py_exc) (e : py_exc) :
    transient_prefix upstream key url w fs ->
    List.length fs < RETRY_TIMES ->
    upstream key url (requests_sent w + List.length fs) = GetRaises e ->
    isinstance_Exception e = false ->
    fetch_run upstream key url delay w
      (Raises e, after_request [] (after_failures delay 0 fs w))
| RunSleepRefused (e : py_exc) :
    upstream key url (requests_sent w) = GetRaises e ->
    is_transient e = true ->
    (delay < 0)%Q ->
    fetch_run upstream key url delay w
      (Raises (sleep_refused e),
       after_request [(WARNING, AttemptFailedRetrying 1 delay e)] w).

(** The records are all warnings. *)
Definition all_warnings (evs : list log_record) : Prop :=
  Forall (fun ev => fst ev = WARNING) evs.

(** ** The leaves of a user object *)

(** The keys that [extract_user_info] reads off a user object. *)
Definition leaf_keys : list string :=
  ["id"; "username"; "bio"; "instagram"; "twitter"; "youtube"; "discord";
   "tiktok"; "facebook"; "profilepic"].

(** The element [{"channel": {"user": user_fields}}]. *)
Definition user_item (user_fields : list (string * json)) : json :=
  JObject [("channel", JObject [("user", JObject user_fields)])].

(** Two user objects have the same leaves, a leaf bound to [null]
    counting as a missing one. *)
Definition same_leaves (fields1 fields2 : list (string * json)) : Prop :=
  forall key, In key leaf_keys -> get_or fields1 key JNull = get_or fields2 key JNull.

(** ** More bodies, and the error of the handler of main *)




(** The [ValueError] that the handler of [main] makes of the exception
    [cause] it caught, for a way [message_of] of writing its message:
    a [ValueError] with [cause] as its context. *)
Definition surfaced_as (message_of : py_exc -> string) (cause : py_exc) : py_exc :=
  ValueError (message_of cause) (Some cause).

(** * Properties *)

(** ** The monad *)

Lemma for_in_cons {A R} (x : A) (rest : list A) (body : A -> Py (flow R)) (w : world) :
  for_in (x :: rest) body w =
  match body x w with
  | (Returns Next, w') => for_in rest body w'
  | (Returns (Return r), w') => (Returns (Return r), w')
  | (Raises e, w') => (Raises e, w')
  end.
Proof.
  simpl. unfold bind. destruct (body x w) as [[[|r]|e] w']; reflexivity.
Qed.

Lemma emit_nil (w : world) : emit [] w = w.
Proof. destruct w; unfold emit; simpl. now rewrite app_nil_r. Qed.

Lemma emit_emit (evs1 evs2 : list log_record) (w : world) :
  emit evs2 (emit evs1 w) = emit (evs1 ++ evs2) w.
Proof. unfold emit; simpl. now rewrite app_assoc. Qed.

(** ** get_html_content *)

Section FetchFacts.

Variable upstream : string -> string -> nat -> http_result.
Variables key url : string.
Variable delay : Q.
Hypothesis delay_nonneg : (0 <= delay)%Q.

Lemma attempt_ok (attempt : nat) (w : world) (r : response) :
  upstream key url (requests_sent w) = Responds r ->
  status_ok r = true ->
  attempt_body upstream key url delay attempt w = (Returns (Return (Some (content r))), after_request [] w).
Proof.
  intros Hup Hok. unfold attempt_body, try_except, bind, requests_get.
  rewrite Hup. unfold raise_for_status, status_ok in *.
  apply negb_true_iff in Hok. rewrite Hok. unfold ret, after_request.
  now rewrite app_nil_r.
Qed.

Lemma attempt_status_error (attempt : nat) (w : world) (r : response) :
  upstream key url (requests_sent w) = Responds r ->
  status_ok r = false ->
  attempt_body upstream key url delay attempt w =
  (Returns (Return None),
   after_request [(ERROR, HttpErrorEncountered (HTTPError (status_code r)))] w).
Proof.
  intros Hup Hok. unfold attempt_body, try_except, bind, requests_get.
  rewrite Hup. unfold raise_for_status, status_ok in *.
  apply negb_false_iff in Hok. rewrite Hok. reflexivity.
Qed.

Lemma attempt_transient (attempt : nat) (w : world) (e : py_exc) :
  upstream key url (requests_sent w) = GetRaises e ->
  is_transient e = true ->
  attempt_body upstream key url delay attempt w =
  if (attempt <? RETRY_TIMES - 1)%nat
  then (Returns Next, after_failures delay attempt [e] w)
  else (Returns (Return None),
        after_request [(ERROR, FailedAfterAttempts RETRY_TIMES e)] w).
Proof.
  intros Hup Ht. unfold attempt_body, try_except, bind, requests_get.
  rewrite Hup. destruct e; try discriminate Ht. simpl.
  destruct (attempt <? 2)%nat; unfold bind, logging, time_sleep, ret,
    emit, after_failures, after_request; simpl; [| reflexivity].
  rewrite (proj2 (Qle_bool_iff 0 delay) delay_nonneg).
  now rewrite (Nat.add_1_r (requests_sent w)).
Qed.

Lemma attempt_terminal (attempt : nat) (w : world) (e : py_exc) :
  upstream key url (requests_sent w) = GetRaises e ->
  is_transient e = false ->
  isinstance_Exception e = true ->
  attempt_body upstream key url delay attempt w = (Returns (Return None), after_request [(ERROR, terminal_record e)] w).
Proof.
  intros Hup Ht Hex. unfold attempt_body, try_except, bind, requests_get.
  rewrite Hup. destruct e; try discriminate; reflexivity.
Qed.

Lemma attempt_interrupt (attempt : nat) (w : world) (e : py_exc) :
  upstream key url (requests_sent w) = GetRaises e ->
  isinstance_Exception e = false ->
  attempt_body upstream key url delay attempt w = (Raises e, after_request [] w).
Proof.
  intros Hup Hex. unfold attempt_body, try_except, bind, requests_get.
  rewrite Hup. destruct e; try discriminate. unfold after_request.
  simpl. unfold raise. now rewrite app_nil_r.
Qed.

Lemma after_failures_nil (first : nat) (w : world) : after_failures delay first [] w = w.
Proof.
  destruct w; unfold after_failures; simpl.
  now rewrite !app_nil_r, Nat.add_0_r.
Qed.

Lemma after_failures_cons (first : nat) (e : py_exc) (fs : list py_exc) (w : world) :
  after_failures delay (S first) fs (after_failures delay first [e] w) =
  after_failures delay first (e :: fs) w.
Proof.
  unfold after_failures; simpl. rewrite <- !app_assoc. simpl.
  f_equal. lia.
Qed.

(** The attempts that fail transiently before the last one are
    skipped over: the loop goes on after them. *)
Lemma for_in_retries (fs : list py_exc) :
  forall (first n : nat) (w : world),
    Forall (fun e => is_transient e = true) fs ->
    (forall i e, nth_error fs i = Some e ->
                 upstream key url (requests_sent w + i) = GetRaises e) ->
    first + List.length fs < RETRY_TIMES ->
    List.length fs <= n ->
    for_in (seq first n) (attempt_body upstream key url delay) w =
    for_in (seq (first + List.length fs) (n - List.length fs))
           (attempt_body upstream key url delay)
           (after_failures delay first fs w).
Proof.
  induction fs as [|e fs IH]; intros first n w Hall Hup Hlt Hlen.
  - simpl. now rewrite Nat.add_0_r, Nat.sub_0_r, after_failures_nil.
  - destruct n as [|n]; [simpl in Hlen; lia|].
    simpl seq. rewrite for_in_cons.
    inversion Hall as [|? ? He Hfs]; subst.
    rewrite (attempt_transient first w e).
    + replace (first <? RETRY_TIMES - 1)%nat with true
        by (symmetry; apply Nat.ltb_lt; simpl in Hlt; lia).
      rewrite (IH (S first) n).
      * rewrite after_failures_cons. simpl List.length.
        now replace (S first + List.length fs) with (first + S (List.length fs)) by lia.
      * assumption.
      * intros i e' Hi. simpl. rewrite Nat.add_1_r.
        replace (S (requests_sent w) + i) with (requests_sent w + S i) by lia.
        now apply Hup.
      * simpl in Hlt. lia.
      * simpl in Hlen. lia.
    + rewrite <- (Nat.add_0_r (requests_sent w)). now apply Hup.
    + assumption.
Qed.

End FetchFacts.

Lemma get_html_content_unfold upstream key url delay (w : world) :
  get_html_content upstream key url delay w =
  match for_in (seq 0 RETRY_TIMES) (attempt_body upstream key url delay) w with
  | (Returns (Return r), w') => (Returns r, w')
  | (Returns Next, w') => (Returns None, w')
  | (Raises e, w') => (Raises e, w')
  end.
Proof.
  unfold get_html_content, bind, range.
  destruct (for_in _ _ w) as [[[|r]|e] w']; reflexivity.
Qed.

Lemma Forall_firstn_of {A} (P : A -> Prop) (n : nat) :
  forall l, Forall P l -> Forall P (firstn n l).
Proof.
  induction n as [|n IH]; intros [|x l] H; simpl; try constructor.
  - now inversion H.
  - apply IH. now inversion H.
Qed.

Lemma transient_prefix_firstn upstream key url w fs n :
  transient_prefix upstream key url w fs ->
  transient_prefix upstream key url w (firstn n fs).
Proof.
  intros [Hall Hup]. split.
  - now apply Forall_firstn_of.
  - intros i e Hi. apply Hup.
    destruct (Nat.lt_ge_cases i n) as [Hlt|Hge].
    + now rewrite nth_error_firstn, (proj2 (Nat.ltb_lt i n) Hlt) in Hi.
    + rewrite nth_error_firstn in Hi.
      now rewrite (proj2 (Nat.ltb_ge i n) Hge) in Hi.
Qed.

(** The run in which the attempts [fs] fail transiently and the budget
    leaves one more: the loop goes on with attempt [length fs]. *)
Lemma get_html_content_after_failures upstream key url delay (w : world) (fs : list py_exc) :
  (0 <= delay)%Q ->
  transient_prefix upstream key url w fs ->
  List.length fs < RETRY_TIMES ->
  get_html_content upstream key url delay w =
  match for_in (seq (List.length fs) (RETRY_TIMES - List.length fs))
               (attempt_body upstream key url delay) (after_failures delay 0 fs w) with
  | (Returns (Return r), w') => (Returns r, w')
  | (Returns Next, w') => (Returns None, w')
  | (Raises e, w') => (Raises e, w')
  end.
Proof.
  intros Hdelay [Hall Hup] Hlt. rewrite get_html_content_unfold.
  rewrite (for_in_retries upstream key url delay Hdelay fs 0 RETRY_TIMES w Hall Hup);
    [reflexivity | simpl; lia | lia].
Qed.

(** When the attempt after the failures [fs] leaves the function, so
    does the run, with the same value and world. *)
Lemma get_html_content_stops upstream key url delay (w w' : world) fs (r : option bytes) :
  (0 <= delay)%Q ->
  transient_prefix upstream key url w fs ->
  List.length fs < RETRY_TIMES ->
  attempt_body upstream key url delay (List.length fs) (after_failures delay 0 fs w)
    = (Returns (Return r), w') ->
  get_html_content upstream key url delay w = (Returns r, w').
Proof.
  intros Hdelay Hpre Hlt Hstep.
  rewrite (get_html_content_after_failures upstream key url delay w fs Hdelay Hpre Hlt).
  destruct (RETRY_TIMES - List.length fs) as [|n] eqn:Hn;
    [unfold RETRY_TIMES in *; lia|].
  simpl seq. rewrite for_in_cons, Hstep. reflexivity.
Qed.

Lemma requests_sent_after_failures delay first fs w :
  requests_sent (after_failures delay first fs w) = requests_sent w + List.length fs.
Proof. reflexivity. Qed.

Lemma get_html_content_success upstream key url delay (w : world) fs (r : response) :
  (0 <= delay)%Q ->
  transient_prefix upstream key url w fs ->
  List.length fs < RETRY_TIMES ->
  upstream key url (requests_sent w + List.length fs) = Responds r ->
  status_ok r = true ->
  get_html_content upstream key url delay w =
  (Returns (Some (content r)), after_request [] (after_failures delay 0 fs w)).
Proof.
  intros Hdelay Hpre Hlt Hr Hok.
  apply (get_html_content_stops upstream key url delay w _ fs _ Hdelay Hpre Hlt).
  now apply attempt_ok.
Qed.

Lemma get_html_content_status_error upstream key url delay (w : world) fs (r : response) :
  (0 <= delay)%Q ->
  transient_prefix upstream key url w fs ->
  List.length fs < RETRY_TIMES ->
  upstream key url (requests_sent w + List.length fs) = Responds r ->
  status_ok r = false ->
  get_html_content upstream key url delay w =
  (Returns None,
   after_request [(ERROR, HttpErrorEncountered (HTTPError (status_code r)))]
                 (after_failures delay 0 fs w)).
Proof.
  intros Hdelay Hpre Hlt Hr Hok.
  apply (get_html_content_stops upstream key url delay w _ fs _ Hdelay Hpre Hlt).
  now apply attempt_status_error.
Qed.

Lemma get_html_content_terminal upstream key url delay (w : world) fs (e : py_exc) :
  (0 <= delay)%Q ->
  transient_prefix upstream key url w fs ->
  List.length fs < RETRY_TIMES ->
  upstream key url (requests_sent w + List.length fs) = GetRaises e ->
  is_transient e = false ->
  isinstance_Exception e = true ->
  get_html_content upstream key url delay w =
  (Returns None, after_request [(ERROR, terminal_record e)] (after_failures delay 0 fs w)).
Proof.
  intros Hdelay Hpre Hlt Hr Ht Hex.
  apply (get_html_content_stops upstream key url delay w _ fs _ Hdelay Hpre Hlt).
  now apply attempt_terminal.
Qed.

Lemma get_html_content_exhausted upstream key url delay (w : world) fs :
  (0 <= delay)%Q ->
  transient_prefix upstream key url w fs ->
  List.length fs = RETRY_TIMES ->
  exists e_last,
    nth_error fs (RETRY_TIMES - 1) = Some e_last /\
    get_html_content upstream key url delay w =
    (Returns None,
     after_request [(ERROR, FailedAfterAttempts RETRY_TIMES e_last)]
                   (after_failures delay 0 (firstn (RETRY_TIMES - 1) fs) w)).
Proof.
  intros Hdelay Hpre Hlen.
  destruct fs as [|e1 [|e2 [|e3 [|]]]]; try discriminate Hlen.
  exists e3. split; [reflexivity|].
  apply (get_html_content_stops upstream key url delay w _ [e1; e2]).
  - exact Hdelay.
  - apply (transient_prefix_firstn _ _ _ _ _ 2 Hpre).
  - unfold RETRY_TIMES. simpl. lia.
  - destruct Hpre as [Hall Hup].
    rewrite (attempt_transient upstream key url delay Hdelay 2 _ e3).
    + reflexivity.
    + apply (Hup 2 e3). reflexivity.
    + inversion Hall as [|? ? H1 Hr]; subst. inversion Hr as [|? ? H2 Hr']; subst.
      now inversion Hr'.
Qed.

(** C1: when only transient failures occur, [get_html_content], called
    with a [delay] that [time.sleep] accepts, makes at most
    [RETRY_TIMES] = 3 attempts and sleeps the same [delay] after each
    failed attempt but the last.  If three attempts fail
    transiently it returns the failure value [None] after exactly 3
    requests, 2 sleeps and the error record of the exhausted budget;
    if the attempts [fs] (fewer than 3) fail transiently and the next
    one is answered with a good status, it returns that response's
    content after exactly [length fs + 1] requests and [length fs]
    sleeps. *)
Theorem get_html_content_retries_transient
  upstream key url delay (w : world) (fs : list py_exc) :
  (0 <= delay)%Q ->
  transient_prefix upstream key url w fs ->
  (List.length fs = RETRY_TIMES ->
   exists w' e_last,
     get_html_content upstream key url delay w = (Returns None, w') /\
     requests_sent w' = requests_sent w + RETRY_TIMES /\
     slept w' = slept w ++ repeat delay (RETRY_TIMES - 1) /\
     nth_error fs (RETRY_TIMES - 1) = Some e_last /\
     log w' = log w ++ retry_warnings delay 0 (firstn (RETRY_TIMES - 1) fs)
                    ++ [(ERROR, FailedAfterAttempts RETRY_TIMES e_last)])
  /\
  (List.length fs < RETRY_TIMES ->
   forall r,
     upstream key url (requests_sent w + List.length fs) = Responds r ->
     status_ok r = true ->
     exists w',
       get_html_content upstream key url delay w = (Returns (Some (content r)), w') /\
       requests_sent w' = requests_sent w + List.length fs + 1 /\
       slept w' = slept w ++ repeat delay (List.length fs) /\
       log w' = log w ++ retry_warnings delay 0 fs).
Proof.
  intros Hdelay Hpre. split.
  - intros Hlen.
    destruct (get_html_content_exhausted upstream key url delay w fs Hdelay Hpre Hlen)
      as [e_last [Hlast Hrun]].
    eexists. exists e_last. split; [exact Hrun|].
    destruct fs as [|e1 [|e2 [|e3 [|]]]]; try discriminate Hlen.
    unfold RETRY_TIMES. simpl. repeat split.
    + lia.
    + exact Hlast.
    + now rewrite <- app_assoc.
  - intros Hlt r Hr Hok.
    rewrite (get_html_content_success upstream key url delay w fs r Hdelay Hpre Hlt Hr Hok).
    eexists. split; [reflexivity|]. simpl. repeat split.
    + lia.
    + now rewrite app_nil_r.
Qed.

Lemma default_delay_nonneg : (0 <= default_delay)%Q.
Proof. unfold Qle. simpl. lia. Qed.

Lemma get_html_content_retries_transient_witness :
  (exists w',
     get_html_content (upstream_of [] timeout_failure)
                      api_key target_url default_delay world0 = (Returns None, w') /\
     requests_sent w' = 3 /\ slept w' = [default_delay; default_delay]) /\
  (exists w',
     get_html_content
       (upstream_of [timeout_failure; GetRaises (RequestException ConnectionError)]
                    (ok_response example_body))
       api_key target_url default_delay world0 = (Returns (Some example_body), w') /\
     requests_sent w' = 3 /\ slept w' = [default_delay; default_delay]).
Proof.
  split.
  - destruct (get_html_content_retries_transient
                (upstream_of [] timeout_failure) api_key target_url default_delay world0
                [RequestException Timeout; RequestException Timeout;
                 RequestException Timeout]) as [Hexhausted _].
    + exact default_delay_nonneg.
    + split.
      * repeat constructor.
      * intros [|[|[|i]]] e H; simpl in H; try (inversion H; reflexivity).
        destruct i; discriminate H.
    + destruct (Hexhausted eq_refl) as [w' [e [Hrun [Hsent [Hslept _]]]]].
      exists w'. repeat split; assumption.
  - destruct (get_html_content_retries_transient
                (upstream_of [timeout_failure; GetRaises (RequestException ConnectionError)]
                             (ok_response example_body))
                api_key target_url default_delay world0
                [RequestException Timeout; RequestException ConnectionError])
      as [_ Hsuccess].
    + exact default_delay_nonneg.
    + split.
      * repeat constructor.
      * intros [|[|i]] e H; simpl in H; try (inversion H; reflexivity).
        destruct i; discriminate H.
    + destruct (Hsuccess (le_n 3) {| status_code := 200; content := example_body |}
                         eq_refl eq_refl) as [w' [Hrun [Hsent [Hslept _]]]].
      exists w'. repeat split; assumption.
Defined.

(** C2, as the code has it: when the first attempt is answered with a
    4xx or 5xx status, [get_html_content] does not retry; it returns
    [None] after exactly one request and no sleep.  The status code is
    written to the log record of the error; the returned value is the
    bare [None]. *)
Theorem get_html_content_http_status_not_retried
  upstream key url delay (w : world) (r : response) :
  upstream key url (requests_sent w) = Responds r ->
  (400 <= status_code r < 600)%Z ->
  get_html_content upstream key url delay w =
  (Returns None,
   {| log := log w ++ [(ERROR, HttpErrorEncountered (HTTPError (status_code r)))];
      slept := slept w;
      requests_sent := requests_sent w + 1 |}).
Proof.
  intros Hr Hcode.
  assert (Hok : status_ok r = false).
  { unfold status_ok. apply negb_false_iff, andb_true_iff. split.
    - apply Z.leb_le. lia.
    - apply Z.ltb_lt. lia. }
  rewrite get_html_content_unfold.
  change (seq 0 RETRY_TIMES) with (0 :: seq 1 2). rewrite for_in_cons.
  rewrite (attempt_status_error upstream key url delay 0 w r Hr Hok).
  unfold after_request. f_equal. f_equal. lia.
Qed.

Lemma get_html_content_http_status_not_retried_witness :
  get_html_content (upstream_of [] (status_response 404))
                   api_key target_url default_delay world0 =
  (Returns None,
   {| log := [(ERROR, HttpErrorEncountered (HTTPError 404))];
      slept := [];
      requests_sent := 1 |}).
Proof.
  apply (get_html_content_http_status_not_retried
           (upstream_of [] (status_response 404)) api_key target_url default_delay world0
           {| status_code := 404; content := "" |}).
  - reflexivity.
  - simpl. lia.
Defined.

(** C2, as the spec has it, fails: no reading of the returned outcome
    recovers the status code, since a 404 and a 500 give the same one. *)
Lemma http_status_code_not_in_outcome :
  ~ exists decode : outcome (option bytes) -> Z,
      forall upstream key url delay (w : world) (r : response),
        upstream key url (requests_sent w) = Responds r ->
        (400 <= status_code r < 600)%Z ->
        decode (fst (get_html_content upstream key url delay w)) = status_code r.
Proof.
  intros [decode H].
  pose proof (H (upstream_of [] (status_response 404)) api_key target_url default_delay
                world0 {| status_code := 404; content := "" |} eq_refl) as H404.
  pose proof (H (upstream_of [] (status_response 500)) api_key target_url default_delay
                world0 {| status_code := 500; content := "" |} eq_refl) as H500.
  simpl in H404, H500.
  assert (E : (404 = 500)%Z).
  { rewrite <- H404, <- H500 by lia. reflexivity. }
  discriminate E.
Qed.

(** C9: in every failure mode of the fetch stage, an HTTP status
    error, the exhausted retry budget, a rate-limit signal or any other
    exception, [get_html_content] (called with a [delay] that
    [time.sleep] accepts) raises nothing and returns [None]: the caller
    gets the same value for all of them. *)
Theorem get_html_content_failure_is_None upstream key url delay (w : world) :
  (0 <= delay)%Q ->
  fetch_failure upstream key url w ->
  fst (get_html_content upstream key url delay w) = Returns None.
Proof.
  intros Hdelay
         [fs r Hpre Hlt Hr Hok | fs Hpre Hlen | fs Hpre Hlt Hr | fs e Hpre Hlt Hr Ht Hex].
  - now rewrite (get_html_content_status_error upstream key url delay w fs r).
  - destruct (get_html_content_exhausted upstream key url delay w fs Hdelay Hpre Hlen)
      as [e [_ Hrun]].
    now rewrite Hrun.
  - now rewrite (get_html_content_terminal upstream key url delay w fs RateLimitException).
  - now rewrite (get_html_content_terminal upstream key url delay w fs e).
Qed.

Lemma get_html_content_failure_is_None_witness :
  fst (get_html_content (upstream_of [] (status_response 503))
                        api_key target_url default_delay world0) = Returns None /\
  fst (get_html_content (upstream_of [] timeout_failure)
                        api_key target_url default_delay world0) = Returns None /\
  fst (get_html_content (upstream_of [timeout_failure] (GetRaises RateLimitException))
                        api_key target_url default_delay world0) = Returns None /\
  fst (get_html_content (upstream_of [] (GetRaises (OtherException "boom")))
                        api_key target_url default_delay world0) = Returns None.
Proof.
  split; [|split; [|split]];
    apply (get_html_content_failure_is_None _ _ _ _ _ default_delay_nonneg).
  - apply (HttpStatusFailure _ _ _ _ [] {| status_code := 503; content := "" |}).
    + split; [constructor|]. intros [|i] e H; discriminate H.
    + apply Nat.lt_0_succ.
    + reflexivity.
    + reflexivity.
  - apply (BudgetExhausted _ _ _ _ [RequestException Timeout; RequestException Timeout;
                                    RequestException Timeout]).
    + split; [repeat constructor|].
      intros [|[|[|i]]] e H; simpl in H; try (inversion H; reflexivity).
      destruct i; discriminate H.
    + reflexivity.
  - apply (RateLimitSignal _ _ _ _ [RequestException Timeout]).
    + split; [repeat constructor|].
      intros [|i] e H; simpl in H; try (inversion H; reflexivity).
      destruct i; discriminate H.
    + apply le_n_S, le_n_S, Nat.le_0_l.
    + reflexivity.
  - apply (UnexpectedException _ _ _ _ [] (OtherException "boom")).
    + split; [constructor|]. intros [|i] e H; discriminate H.
    + apply Nat.lt_0_succ.
    + reflexivity.
    + reflexivity.
    + reflexivity.
Defined.

(** ** parse_html_to_json *)

Section ParseFacts.

Variable BeautifulSoup : bytes -> outcome (list node).
Variable json_loads : string -> outcome json.

Lemma parse_html_to_json_spec (html_content : bytes) (w : world) :
  parse_html_to_json BeautifulSoup json_loads html_content w =
  match decoded BeautifulSoup json_loads html_content with
  | Returns json_data => (Returns json_data, w)
  | Raises e => (Raises e, emit (parse_failure_records e) w)
  end.
Proof.
  assert (Hh : forall e,
             dispatch
               [ (isinstance_JSONDecodeError,
                  fun jde => logging ERROR JsonParsingError ;;; raise (A:=json) jde);
                 (isinstance_Exception,
                  fun e => logging ERROR (UnexpectedParsingError e) ;;; raise e) ] e w
             = (Raises e, emit (parse_failure_records e) w)).
  { intros e. unfold parse_failure_records.
    destruct e; simpl; unfold bind, logging, raise; simpl; try reflexivity.
    now rewrite emit_nil. }
  unfold parse_html_to_json, decoded, try_except, bind, lift.
  destruct (BeautifulSoup html_content) as [soup|e]; [|apply Hh].
  destruct (soup_body soup) as [tag|]; [|apply Hh].
  unfold getattr_text, ret.
  destruct (json_loads (get_text tag)) as [j|e]; [reflexivity|apply Hh].
Qed.

End ParseFacts.

(** ** extract_user_info *)

Lemma extract_item_spec (item : json) (w : world) :
  extract_item item w =
  match read_item item with
  | inl (channel_info, info) => (Returns Next, emit (item_records channel_info info) w)
  | inr other => (Raises (AttributeError (type_name other) "get"), w)
  end.
Proof.
  unfold extract_item, read_item.
  destruct item as [| | | | | |fields]; try reflexivity.
  unfold py_get at 1. unfold bind at 1. unfold ret at 1. fold (get_or fields "channel" (JObject [])).
  destruct (get_or fields "channel" (JObject [])) as [| | | | | |cfields]; try reflexivity.
  unfold py_get at 1. unfold bind at 1. unfold ret at 1. fold (get_or cfields "user" (JObject [])).
  destruct (get_or cfields "user" (JObject [])) as [| | | | | |ufields]; try reflexivity.
  unfold py_get, bind, ret, logging, item_records, record_of, get_or. simpl.
  rewrite emit_emit. reflexivity.
Qed.

Lemma for_in_extract_item (items : list json) :
  forall w,
    for_in items extract_item w =
    (match snd (read_items items) with
     | None => Returns Next
     | Some other => Raises (AttributeError (type_name other) "get")
     end,
     emit (fst (read_items items)) w).
Proof.
  induction items as [|item rest IH]; intros w.
  - simpl. unfold ret. now rewrite emit_nil.
  - rewrite for_in_cons, extract_item_spec. simpl read_items.
    destruct (read_item item) as [[channel_info info]|other].
    + rewrite IH. destruct (read_items rest) as [evs stop]. simpl fst. simpl snd.
      now rewrite emit_emit.
    + simpl. now rewrite emit_nil.
Qed.

Lemma extract_user_info_spec (json_data : json) (w : world) :
  extract_user_info json_data w =
  (fst (extraction json_data), emit (snd (extraction json_data)) w).
Proof.
  unfold extraction, check_shape, extract_user_info, try_except.
  destruct (truthy json_data) eqn:Htruthy; simpl negb; cbv iota.
  - destruct json_data as [|b|z|f|s|items|fields].
    + discriminate Htruthy.
    + simpl. now rewrite emit_nil.
    + simpl. now rewrite emit_nil.
    + simpl. now rewrite emit_nil.
    + unfold bind at 1. unfold bind at 1. unfold py_contains, ret.
      destruct (str_contains "data" s); simpl; now rewrite emit_nil.
    + unfold bind at 1. unfold bind at 1. unfold py_contains, ret.
      destruct (existsb _ items); simpl; now rewrite emit_nil.
    + unfold bind at 1. unfold bind at 1. unfold py_contains, ret.
      destruct (dict_lookup "data" fields) as [data|] eqn:Hdata; simpl negb; cbv iota.
      * unfold bind at 1. unfold py_getitem. rewrite Hdata. unfold ret.
        destruct data as [| | | | |items|]; simpl; try now rewrite emit_nil.
        unfold bind at 1. unfold bind at 1. unfold bind at 1. simpl iter_list.
        rewrite for_in_extract_item.
        destruct (snd (read_items items)) as [other|]; reflexivity.
      * simpl. now rewrite emit_nil.
  - simpl. now rewrite emit_nil.
Qed.

Lemma check_shape_accepts (json_data : json) :
  has_data_sequence json_data = true ->
  exists fields items,
    json_data = JObject fields /\ dict_lookup "data" fields = Some (JArray items) /\
    check_shape json_data = ShapeAccepted items.
Proof.
  destruct json_data as [| | | | | |fields]; try discriminate. simpl.
  destruct (dict_lookup "data" fields) as [[| | | | |items|]|] eqn:Hdata; try discriminate.
  intros _. exists fields, items. repeat split; try assumption.
  unfold check_shape. destruct fields as [|field rest]; [discriminate Hdata|].
  simpl truthy. simpl negb. cbv iota. now rewrite Hdata.
Qed.

Lemma read_items_readable (items : list json) :
  Forall readable items ->
  snd (read_items items) = None /\
  Forall2 record_of_item items (logged_user_infos (fst (read_items items))).
Proof.
  induction 1 as [|item rest [channel_info [info Hitem]] Hrest [IHstop IHrecs]]; simpl.
  - split; constructor.
  - rewrite Hitem. destruct (read_items rest) as [evs stop]. simpl in *. split.
    + assumption.
    + constructor; [now exists channel_info | assumption].
Qed.

(** C3, as the code has it: for a document with ["data"] bound to a
    list whose elements can all be read (each is an object whose
    [channel], and that channel's [user], is an object or missing),
    extraction does not fail and logs exactly one user record per
    element, in the order of the elements, with no element dropped,
    merged or moved.  A missing [channel], a missing [user] and a
    missing leaf field give absent values. *)
Theorem extract_user_info_one_record_per_element
  (fields : list (string * json)) (items : list json) (w : world) :
  dict_lookup "data" fields = Some (JArray items) ->
  Forall readable items ->
  (exists evs,
     extract_user_info (JObject fields) w = (Returns tt, emit evs w) /\
     Forall2 record_of_item items (logged_user_infos evs)) /\
  (forall item_fields,
     dict_lookup "channel" item_fields = None ->
     read_item (JObject item_fields) = inl (JObject [], all_absent)) /\
  (forall item_fields channel_fields,
     dict_lookup "channel" item_fields = Some (JObject channel_fields) ->
     dict_lookup "user" channel_fields = None ->
     read_item (JObject item_fields) = inl (JObject channel_fields, all_absent)) /\
  (forall user_fields key,
     dict_lookup key user_fields = None -> get_or user_fields key JNull = JNull).
Proof.
  intros Hdata Hitems. repeat split.
  - destruct (read_items_readable items Hitems) as [Hstop Hrecs].
    exists (fst (read_items items)). split; [|exact Hrecs].
    rewrite extract_user_info_spec.
    destruct (check_shape_accepts (JObject fields)) as [fields' [items' [Heq [Hdata' Hcheck]]]].
    { simpl. now rewrite Hdata. }
    injection Heq as <-. rewrite Hdata in Hdata'. injection Hdata' as <-.
    unfold extraction. rewrite Hcheck, Hstop. reflexivity.
  - intros item_fields Hchannel. unfold read_item, get_or. now rewrite Hchannel.
  - intros item_fields channel_fields Hchannel Huser.
    unfold read_item, get_or. now rewrite Hchannel, Huser.
  - intros user_fields key Hkey. unfold get_or. now rewrite Hkey.
Qed.

Lemma extract_user_info_one_record_per_element_witness :
  exists evs,
    extract_user_info
      (JObject [("data",
                 JArray [JObject [("channel",
                                   JObject [("user", JObject [("id", JString "1");
                                                              ("username", JString "a")])])];
                         JObject []])])
      world0 = (Returns tt, emit evs world0) /\
    List.length (logged_user_infos evs) = 2.
Proof.
  destruct (extract_user_info_one_record_per_element
              [("data",
                JArray [JObject [("channel",
                                  JObject [("user", JObject [("id", JString "1");
                                                             ("username", JString "a")])])];
                        JObject []])]
              [JObject [("channel",
                         JObject [("user", JObject [("id", JString "1");
                                                    ("username", JString "a")])])];
               JObject []]
              world0 eq_refl) as [[evs [Hrun Hrecs]] _].
  - constructor; [|constructor; [|constructor]].
    + eexists. eexists. reflexivity.
    + eexists. eexists. reflexivity.
  - exists evs. split; [exact Hrun|].
    inversion Hrecs as [|? ? ? ? _ Hrest Ha Hb]. subst.
    inversion Hrest as [|? ? ? ? _ Hnil]. subst.
    inversion Hnil. reflexivity.
Defined.

(** C3, as the spec has it, fails: an element that is not an object
    makes the whole extraction raise, after the records of the elements
    before it were logged. *)
Lemma extract_user_info_raises_on_malformed_element :
  extract_user_info (JObject [("data", JArray [JInt 1])]) world0 =
  (Raises (unexpected_extraction_error (AttributeError "int" "get")), world0) /\
  extract_user_info (JObject [("data", JArray [JObject []; JObject [("channel", JNull)]])])
                    world0 =
  (Raises (unexpected_extraction_error (AttributeError "NoneType" "get")),
   emit (item_records (JObject []) all_absent) world0).
Proof. split; reflexivity. Qed.

Lemma extraction_rejects (json_data : json) :
  has_data_sequence json_data = false ->
  exists msg cause, fst (extraction json_data) = Raises (ValueError msg (Some cause)).
Proof.
  intros Hshape. unfold extraction.
  destruct (check_shape json_data) as [items| |e] eqn:Hcheck.
  - exfalso. unfold check_shape in Hcheck.
    destruct (negb (truthy json_data)); [discriminate|].
    destruct json_data as [| | | | s |xs|fields]; try discriminate.
    + destruct (str_contains "data" s); discriminate.
    + destruct (existsb _ xs); discriminate.
    + simpl in Hshape.
      destruct (dict_lookup "data" fields) as [[| | | | | |]|]; discriminate.
  - eexists. eexists. reflexivity.
  - eexists. eexists. reflexivity.
Qed.

Lemma extraction_of_accepted (items : list json) :
  match snd (read_items items) with
  | None => Returns tt
  | Some other =>
      Raises (unexpected_extraction_error (AttributeError (type_name other) "get"))
  end <> Raises (A:=unit) invalid_shape_error.
Proof.
  destruct (snd (read_items items)); discriminate.
Qed.

(** C5, as the code has it: a document with ["data"] bound to a list
    passes the top-level check, so extraction never fails with the
    invalid-shape error on it; every other document makes extraction
    fail with a [ValueError]; for a document that is an object, or that
    is falsy, this [ValueError] is the invalid-shape error, so that on
    objects extraction fails with the invalid-shape error exactly when
    ["data"] is missing or not a list; and [{"data":"not-a-list"}] is
    rejected with that error, nothing being logged. *)
Theorem extract_user_info_shape_check (json_data : json) (w : world) :
  (has_data_sequence json_data = true ->
   fst (extract_user_info json_data w) <> Raises invalid_shape_error) /\
  (has_data_sequence json_data = false ->
   exists msg cause,
     fst (extract_user_info json_data w) = Raises (ValueError msg (Some cause))) /\
  (has_data_sequence json_data = false ->
   is_object json_data = true \/ truthy json_data = false ->
   extract_user_info json_data w = (Raises invalid_shape_error, w)) /\
  (is_object json_data = true ->
   (fst (extract_user_info json_data w) = Raises invalid_shape_error <->
    has_data_sequence json_data = false)) /\
  extract_user_info (JObject [("data", JString "not-a-list")]) w =
  (Raises invalid_shape_error, w).
Proof.
  assert (Hpass : has_data_sequence json_data = true ->
                  fst (extract_user_info json_data w) <> Raises invalid_shape_error).
  { intros Hshape. rewrite extract_user_info_spec. simpl fst.
    destruct (check_shape_accepts json_data Hshape) as [fields [items [_ [_ Hcheck]]]].
    unfold extraction. rewrite Hcheck. simpl fst. apply extraction_of_accepted. }
  assert (Hreject : has_data_sequence json_data = false ->
                    is_object json_data = true \/ truthy json_data = false ->
                    extract_user_info json_data w = (Raises invalid_shape_error, w)).
  { intros Hshape Hkind. rewrite extract_user_info_spec.
    unfold extraction, check_shape.
    destruct (truthy json_data) eqn:Htruthy; simpl negb; cbv iota.
    - destruct Hkind as [Hobj|Hfalse]; [|discriminate Hfalse].
      destruct json_data as [| | | | | |fields]; try discriminate Hobj.
      simpl in Hshape.
      destruct (dict_lookup "data" fields) as [[| | | | | |]|];
        try discriminate Hshape; simpl; now rewrite emit_nil.
    - simpl. now rewrite emit_nil. }
  split; [exact Hpass|]. split; [|split; [exact Hreject|split]].
  - intros Hshape. rewrite extract_user_info_spec. simpl fst.
    now apply extraction_rejects.
  - intros Hobj. split.
    + intros Hfails. destruct (has_data_sequence json_data) eqn:Hshape; [|reflexivity].
      exfalso. now apply Hpass.
    + intros Hshape. rewrite Hreject; auto.
  - rewrite extract_user_info_spec. simpl. now rewrite emit_nil.
Qed.

Lemma extract_user_info_shape_check_witness :
  fst (extract_user_info (JObject [("data", JArray [])]) world0) <> Raises invalid_shape_error /\
  extract_user_info (JObject [("items", JArray [])]) world0 =
  (Raises invalid_shape_error, world0).
Proof.
  split.
  - apply (proj1 (extract_user_info_shape_check (JObject [("data", JArray [])]) world0)).
    reflexivity.
  - apply (proj1 (proj2 (proj2 (extract_user_info_shape_check
                                  (JObject [("items", JArray [])]) world0)))).
    + reflexivity.
    + left. reflexivity.
Defined.

(** C5, as the spec has it, fails under both readings of "the
    invalid-shape error".  Read as the error of the failed check, the
    number 5 has not the shape and yet fails with another error; read
    as any [ValueError] of the extractor, [{"data":[1]}] has the shape
    and fails with one. *)
Lemma invalid_shape_error_not_iff :
  ~ (forall json_data,
       fst (extract_user_info json_data world0) = Raises invalid_shape_error <->
       has_data_sequence json_data = false) /\
  ~ (forall json_data,
       (exists msg cause,
          fst (extract_user_info json_data world0) = Raises (ValueError msg cause)) <->
       has_data_sequence json_data = false).
Proof.
  split.
  - intros H. destruct (H (JInt 5)) as [_ Hback].
    specialize (Hback eq_refl). discriminate Hback.
  - intros H. destruct (H (JObject [("data", JArray [JInt 1])])) as [Hfwd _].
    assert (Hshape : has_data_sequence (JObject [("data", JArray [JInt 1])]) = false).
    { apply Hfwd. eexists. eexists. reflexivity. }
    discriminate Hshape.
Qed.

(** ** main *)

Section MainFacts.

Variable upstream : string -> string -> nat -> http_result.
Variable BeautifulSoup : bytes -> outcome (list node).
Variable json_loads : string -> outcome json.

Lemma main_unfold (w : world) :
  main upstream BeautifulSoup json_loads w =
  match get_html_content upstream api_key target_url default_delay w with
  | (Raises e, w1) => (surfaced (Raises e), w1)
  | (Returns c, w1) =>
      if negb (truthy_content c) then (Raises (generic_error retrieve_error), w1)
      else match parse_html_to_json BeautifulSoup json_loads (as_bytes c) w1 with
           | (Raises e, w2) => (surfaced (Raises e), w2)
           | (Returns json_data, w2) =>
               if negb (truthy json_data) then (Raises (generic_error parse_error), w2)
               else match extract_user_info json_data w2 with
                    | (o, w3) => (surfaced o, w3)
                    end
           end
  end.
Proof.
  unfold main, try_except. unfold bind at 1.
  destruct (get_html_content upstream api_key target_url default_delay w) as [[c|e] w1].
  - unfold bind at 1.
    destruct (negb (truthy_content c)); [reflexivity|].
    unfold ret at 1. cbv iota beta. unfold bind at 1.
    destruct (parse_html_to_json BeautifulSoup json_loads (as_bytes c) w1)
      as [[json_data|e] w2].
    + unfold bind at 1.
      destruct (negb (truthy json_data)); [reflexivity|].
      unfold ret at 1. cbv iota beta.
      destruct (extract_user_info json_data w2) as [[[]|e] w3]; [reflexivity|].
      simpl. destruct (isinstance_Exception e); reflexivity.
    + simpl. destruct (isinstance_Exception e); reflexivity.
  - simpl. destruct (isinstance_Exception e); reflexivity.
Qed.

Lemma main_after_fetch (w w1 : world) (c : option bytes) :
  get_html_content upstream api_key target_url default_delay w = (Returns c, w1) ->
  main upstream BeautifulSoup json_loads w =
  (fst (after_fetch BeautifulSoup json_loads c),
   emit (snd (after_fetch BeautifulSoup json_loads c)) w1).
Proof.
  intros Hfetch. rewrite main_unfold, Hfetch. unfold after_fetch.
  destruct (negb (truthy_content c)); [simpl; now rewrite emit_nil|].
  rewrite parse_html_to_json_spec.
  destruct (decoded BeautifulSoup json_loads (as_bytes c)) as [json_data|e];
    [|reflexivity].
  destruct (negb (truthy json_data)); [simpl; now rewrite emit_nil|].
  rewrite extract_user_info_spec. reflexivity.
Qed.

End MainFacts.



(** C10: when the text of the body is valid JSON that decodes to a
    falsy document, [parse_html_to_json] succeeds and returns that
    document, and [main] then treats the run as a failed parse: the
    exception it raises has the error "Failed to parse HTML content to
    JSON." as its cause, and nothing is extracted. *)
Theorem falsy_document_rejected_as_parse_failure
  upstream BeautifulSoup json_loads (w w1 : world) (body : bytes)
  (soup : list node) (tag : node) (json_data : json) :
  get_html_content upstream api_key target_url default_delay w = (Returns (Some body), w1) ->
  body <> "" ->
  BeautifulSoup body = Returns soup ->
  soup_body soup = Some tag ->
  json_loads (get_text tag) = Returns json_data ->
  truthy json_data = false ->
  parse_html_to_json BeautifulSoup json_loads body w1 = (Returns json_data, w1) /\
  main upstream BeautifulSoup json_loads w = (Raises (generic_error parse_error), w1).
Proof.
  intros Hfetch Hbody Hsoup Htag Hjson Hfalsy.
  assert (Hparse : parse_html_to_json BeautifulSoup json_loads body w1
                   = (Returns json_data, w1)).
  { rewrite parse_html_to_json_spec. unfold decoded. now rewrite Hsoup, Htag, Hjson. }
  split; [exact Hparse|].
  rewrite main_unfold, Hfetch.
  assert (Htruthy : truthy_content (Some body) = true).
  { simpl. apply negb_true_iff. now apply String.eqb_neq. }
  rewrite Htruthy. simpl negb. cbv iota. simpl as_bytes.
  rewrite Hparse, Hfalsy. reflexivity.
Qed.

Lemma falsy_document_rejected_as_parse_failure_witness :
  parse_html_to_json Reference.BeautifulSoup Reference.json_loads empty_object_body
    {| log := []; slept := []; requests_sent := 1 |}
  = (Returns (JObject []), {| log := []; slept := []; requests_sent := 1 |}) /\
  main (upstream_of [] (ok_response empty_object_body))
       Reference.BeautifulSoup Reference.json_loads world0
  = (Raises (generic_error parse_error), {| log := []; slept := []; requests_sent := 1 |}).
Proof.
  apply (falsy_document_rejected_as_parse_failure
           (upstream_of [] (ok_response empty_object_body))
           Reference.BeautifulSoup Reference.json_loads world0
           {| log := []; slept := []; requests_sent := 1 |}
           empty_object_body
           [Tag "html" [Tag "body" [NavigableString "{}"]]]
           (Tag "body" [NavigableString "{}"])
           (JObject [])).
  - vm_compute. reflexivity.
  - discriminate.
  - vm_compute. reflexivity.
  - vm_compute. reflexivity.
  - vm_compute. reflexivity.
  - reflexivity.
Defined.

Lemma extraction_raises_ValueError (json_data : json) (e : py_exc) :
  fst (extraction json_data) = Raises e -> isinstance_Exception e = true.
Proof.
  unfold extraction.
  destruct (check_shape json_data) as [items| |e']; simpl.
  - destruct (snd (read_items items)); [|discriminate].
    intros H. injection H as <-. reflexivity.
  - intros H. injection H as <-. reflexivity.
  - intros H. injection H as <-. reflexivity.
Qed.

(** C8: what [main] does after the fetch is a function of the fetched
    body alone.  Two runs, against any two upstreams and from any two
    worlds, whose fetch returns the same body end in the same outcome
    and log the same records after the fetch; the parser and the
    extractor return the same in every world and only add to the log. *)
Theorem parse_and_extract_depend_on_body_only
  upstream1 upstream2 BeautifulSoup json_loads (w1 w2 w1' w2' : world) (body : bytes) :
  get_html_content upstream1 api_key target_url default_delay w1
  = (Returns (Some body), w1') ->
  get_html_content upstream2 api_key target_url default_delay w2
  = (Returns (Some body), w2') ->
  (fst (main upstream1 BeautifulSoup json_loads w1)
   = fst (main upstream2 BeautifulSoup json_loads w2) /\
   exists evs,
     snd (main upstream1 BeautifulSoup json_loads w1) = emit evs w1' /\
     snd (main upstream2 BeautifulSoup json_loads w2) = emit evs w2') /\
  (exists o evs, forall w,
     parse_html_to_json BeautifulSoup json_loads body w = (o, emit evs w)) /\
  (forall json_data, exists o evs, forall w,
     extract_user_info json_data w = (o, emit evs w)).
Proof.
  intros Hfetch1 Hfetch2. split; [|split].
  - rewrite (main_after_fetch upstream1 BeautifulSoup json_loads w1 w1' _ Hfetch1).
    rewrite (main_after_fetch upstream2 BeautifulSoup json_loads w2 w2' _ Hfetch2).
    split; [reflexivity|].
    exists (snd (after_fetch BeautifulSoup json_loads (Some body))).
    split; reflexivity.
  - destruct (decoded BeautifulSoup json_loads body) as [json_data|e] eqn:Hdecoded.
    + exists (Returns json_data), []. intros w.
      now rewrite parse_html_to_json_spec, Hdecoded, emit_nil.
    + exists (Raises e), (parse_failure_records e). intros w.
      now rewrite parse_html_to_json_spec, Hdecoded.
  - intros json_data.
    exists (fst (extraction json_data)), (snd (extraction json_data)).
    intros w. apply extract_user_info_spec.
Qed.

Lemma parse_and_extract_depend_on_body_only_witness :
  fst (main (upstream_of [] (ok_response one_user_body))
            Reference.BeautifulSoup Reference.json_loads world0)
  = fst (main (upstream_of [timeout_failure; timeout_failure] (ok_response one_user_body))
              Reference.BeautifulSoup Reference.json_loads
              {| log := [(INFO, ChannelInfo JNull)]; slept := [5%Q]; requests_sent := 0 |}).
Proof.
  apply (parse_and_extract_depend_on_body_only
           (upstream_of [] (ok_response one_user_body))
           (upstream_of [timeout_failure; timeout_failure] (ok_response one_user_body))
           Reference.BeautifulSoup Reference.json_loads
           world0
           {| log := [(INFO, ChannelInfo JNull)]; slept := [5%Q]; requests_sent := 0 |}
           (snd (get_html_content (upstream_of [] (ok_response one_user_body))
                                  api_key target_url default_delay world0))
           (snd (get_html_content
                   (upstream_of [timeout_failure; timeout_failure]
                                (ok_response one_user_body))
                   api_key target_url default_delay
                   {| log := [(INFO, ChannelInfo JNull)]; slept := [5%Q];
                      requests_sent := 0 |}))
           one_user_body).
  - vm_compute. reflexivity.
  - vm_compute. reflexivity.
Defined.


(** ** Further properties of the code *)

Lemma attempt_body_counts upstream key url delay (attempt : nat) (w : world) :
  requests_sent (snd (attempt_body upstream key url delay attempt w)) = S (requests_sent w).
Proof.
  unfold attempt_body, try_except, bind, requests_get.
  destruct (upstream key url (requests_sent w)) as [r|e].
  - unfold raise_for_status.
    destruct ((400 <=? status_code r) && (status_code r <? 600))%Z; reflexivity.
  - destruct e; simpl; try reflexivity.
    destruct (attempt <? 2)%nat; [|reflexivity].
    unfold bind, logging, time_sleep. destruct (Qle_bool 0 delay); reflexivity.
Qed.

Lemma for_in_attempts_bound upstream key url delay (attempts : list nat) :
  forall w,
    requests_sent w
    <= requests_sent (snd (for_in attempts (attempt_body upstream key url delay) w))
    <= requests_sent w + List.length attempts.
Proof.
  induction attempts as [|a rest IH]; intros w.
  - simpl. lia.
  - rewrite for_in_cons.
    pose proof (attempt_body_counts upstream key url delay a w) as Hstep.
    destruct (attempt_body upstream key url delay a w) as [[[|r]|e] w']; simpl in *.
    + specialize (IH w'). lia.
    + lia.
    + lia.
Qed.

(** X1: whatever the upstream does, one call of [get_html_content]
    sends at least one and at most [RETRY_TIMES] = 3 requests. *)
Theorem get_html_content_request_budget upstream key url delay (w : world) :
  requests_sent w + 1
  <= requests_sent (snd (get_html_content upstream key url delay w))
  <= requests_sent w + RETRY_TIMES.
Proof.
  rewrite get_html_content_unfold.
  change (seq 0 RETRY_TIMES) with (0 :: seq 1 2). rewrite for_in_cons.
  pose proof (attempt_body_counts upstream key url delay 0 w) as Hstep.
  destruct (attempt_body upstream key url delay 0 w) as [[[|r]|e] w']; simpl in Hstep.
  - pose proof (for_in_attempts_bound upstream key url delay (seq 1 2) w') as Hrest.
    destruct (for_in (seq 1 2) (attempt_body upstream key url delay) w')
      as [[[|r]|e] w'']; simpl in *; unfold RETRY_TIMES; lia.
  - simpl. unfold RETRY_TIMES. lia.
  - simpl. unfold RETRY_TIMES. lia.
Qed.

(** X2: a response with a good status and an empty body is returned
    by [get_html_content] as a success, and [main] rejects the run as
    a failed fetch without parsing anything. *)
Theorem empty_body_is_a_failed_fetch
  upstream BeautifulSoup json_loads (w : world) (r : response) :
  upstream api_key target_url (requests_sent w) = Responds r ->
  status_ok r = true ->
  content r = "" ->
  get_html_content upstream api_key target_url default_delay w
  = (Returns (Some ""), after_request [] w) /\
  main upstream BeautifulSoup json_loads w
  = (Raises (generic_error retrieve_error), after_request [] w).
Proof.
  intros Hr Hok Hempty.
  assert (Hfetch : get_html_content upstream api_key target_url default_delay w
                   = (Returns (Some ""), after_request [] w)).
  { rewrite get_html_content_unfold.
    change (seq 0 RETRY_TIMES) with (0 :: seq 1 2). rewrite for_in_cons.
    rewrite (attempt_ok upstream api_key target_url default_delay 0 w r Hr Hok).
    now rewrite Hempty. }
  split; [exact Hfetch|].
  rewrite main_unfold, Hfetch. reflexivity.
Qed.

Lemma empty_body_is_a_failed_fetch_witness :
  main (upstream_of [] (ok_response "")) Reference.BeautifulSoup Reference.json_loads world0
  = (Raises (generic_error retrieve_error), after_request [] world0).
Proof.
  apply (empty_body_is_a_failed_fetch
           (upstream_of [] (ok_response "")) Reference.BeautifulSoup Reference.json_loads
           world0 {| status_code := 200; content := "" |});
    reflexivity.
Defined.

Lemma read_items_stop (good : list json) (bad : json) (rest : list json) (other : json) :
  Forall readable good ->
  read_item bad = inr other ->
  read_items (good ++ bad :: rest) = (fst (read_items good), Some other).
Proof.
  intros Hgood Hbad.
  induction Hgood as [|item good' [channel_info [info Hitem]] _ IH]; simpl.
  - now rewrite Hbad.
  - rewrite Hitem, IH. now destruct (read_items good').
Qed.

(** X3: extraction stops at the first element that cannot be read:
    it raises the unexpected-error [ValueError], the records of the
    elements before it stay logged, one per element and in order, and
    no element after it is looked at. *)
Theorem extract_user_info_stops_at_unreadable
  (fields : list (string * json)) (good : list json) (bad : json) (rest : list json)
  (other : json) (w : world) :
  dict_lookup "data" fields = Some (JArray (good ++ bad :: rest)) ->
  Forall readable good ->
  read_item bad = inr other ->
  exists evs,
    extract_user_info (JObject fields) w =
    (Raises (unexpected_extraction_error (AttributeError (type_name other) "get")),
     emit evs w) /\
    Forall2 record_of_item good (logged_user_infos evs).
Proof.
  intros Hdata Hgood Hbad.
  exists (fst (read_items good)). split.
  - rewrite extract_user_info_spec.
    destruct (check_shape_accepts (JObject fields)) as [fields' [items [Heq [Hdata' Hcheck]]]].
    { simpl. now rewrite Hdata. }
    injection Heq as <-. rewrite Hdata in Hdata'. injection Hdata' as <-.
    unfold extraction. rewrite Hcheck, (read_items_stop good bad rest other Hgood Hbad).
    reflexivity.
  - now apply read_items_readable.
Qed.

Lemma extract_user_info_stops_at_unreadable_witness :
  exists evs,
    extract_user_info
      (JObject [("data", JArray [JObject []; JString "x"; JObject []])]) world0 =
    (Raises (unexpected_extraction_error (AttributeError "str" "get")), emit evs world0) /\
    Forall2 record_of_item [JObject []] (logged_user_infos evs).
Proof.
  apply (extract_user_info_stops_at_unreadable
           [("data", JArray [JObject []; JString "x"; JObject []])]
           [JObject []] (JString "x") [JObject []] (JString "x") world0).
  - reflexivity.
  - constructor; [|constructor]. eexists. eexists. reflexivity.
  - reflexivity.
Defined.

(** X4: with a negative [delay], a first attempt that fails transiently
    makes [get_html_content] raise: [time.sleep] refuses the length
    inside the handler, and no clause of the same [try] catches it. *)
Theorem get_html_content_negative_delay_raises
  upstream key url delay (w : world) (e : py_exc) :
  upstream key url (requests_sent w) = GetRaises e ->
  is_transient e = true ->
  (delay < 0)%Q ->
  fst (get_html_content upstream key url delay w)
  = Raises (ValueError "sleep length must be non-negative" (Some e)).
Proof.
  intros Hup Ht Hneg.
  assert (Hsleep : Qle_bool 0 delay = false).
  { destruct (Qle_bool 0 delay) eqn:Hle; [|reflexivity].
    apply Qle_bool_iff in Hle. exfalso. now apply (Qlt_not_le delay 0). }
  rewrite get_html_content_unfold.
  change (seq 0 RETRY_TIMES) with (0 :: seq 1 2). rewrite for_in_cons.
  unfold attempt_body, try_except, bind, requests_get. rewrite Hup.
  destruct e; try discriminate Ht. simpl.
  unfold bind, logging, time_sleep. simpl. now rewrite Hsleep.
Qed.

Lemma get_html_content_negative_delay_raises_witness :
  fst (get_html_content (upstream_of [] timeout_failure) api_key target_url (-1)%Q world0)
  = Raises (ValueError "sleep length must be non-negative"
                       (Some (RequestException Timeout))).
Proof.
  apply (get_html_content_negative_delay_raises
           (upstream_of [] timeout_failure) api_key target_url (-1)%Q world0
           (RequestException Timeout)).
  - reflexivity.
  - reflexivity.
  - reflexivity.
Defined.

(** ** Every run of get_html_content *)

Lemma attempt_body_step upstream key url delay (attempt : nat) (w : world) :
  attempt_step upstream key url delay attempt w
               (attempt_body upstream key url delay attempt w).
Proof.
  destruct (upstream key url (requests_sent w)) as [r|e] eqn:Hup.
  - destruct (status_ok r) eqn:Hok.
    + rewrite (attempt_ok upstream key url delay attempt w r Hup Hok).
      now apply StepAnswered.
    + rewrite (attempt_status_error upstream key url delay attempt w r Hup Hok).
      apply StepGaveUp. left. now exists r.
  - destruct (isinstance_Exception e) eqn:Hex.
    + destruct (is_transient e) eqn:Ht.
      * destruct (Qlt_le_dec delay 0) as [Hneg|Hnonneg].
        -- destruct (attempt <? RETRY_TIMES - 1)%nat eqn:Hlast.
           ++ assert (Hsleep : Qle_bool 0 delay = false).
              { destruct (Qle_bool 0 delay) eqn:Hle; [|reflexivity].
                apply Qle_bool_iff in Hle. exfalso. now apply (Qlt_not_le delay 0). }
              replace (attempt_body upstream key url delay attempt w)
                with (Raises (A:=flow (option bytes)) (sleep_refused e),
                      after_request
                        [(WARNING, AttemptFailedRetrying (attempt + 1) delay e)] w).
              ** now apply StepSleepRefused.
              ** unfold attempt_body, try_except, bind, requests_get. rewrite Hup.
                 destruct e; try discriminate Ht. simpl. simpl in Hlast. rewrite Hlast.
                 unfold bind, logging, time_sleep. simpl. now rewrite Hsleep.
           ++ replace (attempt_body upstream key url delay attempt w)
                with (Returns (A:=flow (option bytes)) (Return None),
                      after_request [(ERROR, FailedAfterAttempts RETRY_TIMES e)] w).
              ** apply StepGaveUp. right. right. exists e. repeat split; try assumption.
                 apply Nat.ltb_ge. exact Hlast.
              ** unfold attempt_body, try_except, bind, requests_get. rewrite Hup.
                 destruct e; try discriminate Ht. simpl. simpl in Hlast. rewrite Hlast.
                 reflexivity.
        -- rewrite (attempt_transient upstream key url delay Hnonneg attempt w e Hup Ht).
           destruct (attempt <? RETRY_TIMES - 1)%nat eqn:Hlast.
           ++ apply StepRetry; try assumption. now apply Nat.ltb_lt.
           ++ apply StepGaveUp. right. right. exists e. repeat split; try assumption.
              apply Nat.ltb_ge. exact Hlast.
      * rewrite (attempt_terminal upstream key url delay attempt w e Hup Ht Hex).
        apply StepGaveUp. right. left. now exists e.
    + rewrite (attempt_interrupt upstream key url delay attempt w e Hup Hex).
      now apply StepInterrupted.
Qed.

Lemma retry_warnings_app (delay : Q) (xs ys : list py_exc) :
  forall first,
    retry_warnings delay first (xs ++ ys) =
    retry_warnings delay first xs ++ retry_warnings delay (first + List.length xs) ys.
Proof.
  induction xs as [|x xs IH]; intros first; simpl.
  - now rewrite Nat.add_0_r.
  - rewrite IH. now replace (S first + List.length xs) with (first + S (List.length xs)) by lia.
Qed.

Lemma after_failures_snoc (delay : Q) (fs : list py_exc) (e : py_exc) (w : world) :
  after_failures delay (List.length fs) [e] (after_failures delay 0 fs w) =
  after_failures delay 0 (fs ++ [e]) w.
Proof.
  unfold after_failures. simpl.
  rewrite retry_warnings_app, length_app, repeat_app. simpl.
  now rewrite <- !app_assoc, Nat.add_assoc.
Qed.

Lemma transient_prefix_snoc upstream key url (w : world) (fs : list py_exc) (e : py_exc) :
  transient_prefix upstream key url w fs ->
  upstream key url (requests_sent w + List.length fs) = GetRaises e ->
  is_transient e = true ->
  transient_prefix upstream key url w (fs ++ [e]).
Proof.
  intros [Hall Hup] He Ht. split.
  - apply Forall_app. split; [assumption|]. now constructor.
  - intros i e' Hi.
    destruct (Nat.lt_ge_cases i (List.length fs)) as [Hlt|Hge].
    + rewrite nth_error_app1 in Hi by assumption. now apply Hup.
    + rewrite nth_error_app2 in Hi by assumption.
      destruct (i - List.length fs) as [|k] eqn:Hk.
      * simpl in Hi. injection Hi as <-.
        now replace i with (List.length fs) by lia.
      * simpl in Hi. destruct k; discriminate Hi.
Qed.

Section FetchRuns.

Variable upstream : string -> string -> nat -> http_result.
Variables key url : string.
Variable delay : Q.

(** The loop from attempt [length fs] on, after the transient failures
    [fs], ends in one of the shapes of a run. *)
Lemma for_in_fetch_run (n : nat) :
  forall (fs : list py_exc) (w : world),
    transient_prefix upstream key url w fs ->
    List.length fs + S n = RETRY_TIMES ->
    (fs <> [] -> (0 <= delay)%Q) ->
    fetch_run upstream key url delay w
      (match for_in (seq (List.length fs) (S n)) (attempt_body upstream key url delay)
                    (after_failures delay 0 fs w) with
       | (Returns (Return r), w') => (Returns r, w')
       | (Returns Next, w') => (Returns None, w')
       | (Raises e, w') => (Raises e, w')
       end).
Proof.
  induction n as [|n IH]; intros fs w Hpre Hlen Hdelay.
  - simpl seq. rewrite for_in_cons.
    pose proof (attempt_body_step upstream key url delay (List.length fs)
                                  (after_failures delay 0 fs w)) as Hstep.
    inversion Hstep as [r Hup Hok Heq | m Hwhy Heq | e Hup Ht Hlast Hnonneg Heq
                        | e Hup Hex Heq | e Hup Ht Hneg Heq].
    + apply RunAnswered; try assumption. unfold RETRY_TIMES in *. lia.
    + apply RunGaveUp; try assumption. unfold RETRY_TIMES in *. lia.
    + exfalso. unfold RETRY_TIMES in *. simpl in Hlast. lia.
    + apply RunInterrupted; try assumption. unfold RETRY_TIMES in *. lia.
    + destruct fs as [|f fs].
      * rewrite after_failures_nil. rewrite after_failures_nil in Hup.
        now apply RunSleepRefused.
      * exfalso. apply (Qlt_not_le delay 0 Hneg). apply Hdelay. discriminate.
  - simpl seq. rewrite for_in_cons.
    pose proof (attempt_body_step upstream key url delay (List.length fs)
                                  (after_failures delay 0 fs w)) as Hstep.
    inversion Hstep as [r Hup Hok Heq | m Hwhy Heq | e Hup Ht Hlast Hnonneg Heq
                        | e Hup Hex Heq | e Hup Ht Hneg Heq].
    + apply RunAnswered; try assumption. unfold RETRY_TIMES in *. lia.
    + apply RunGaveUp; try assumption. unfold RETRY_TIMES in *. lia.
    + rewrite after_failures_snoc.
      replace (S (List.length fs)) with (List.length (fs ++ [e]))
        by (rewrite length_app; simpl; lia).
      apply IH.
      * now apply transient_prefix_snoc.
      * rewrite length_app. simpl. lia.
      * intros _. exact Hnonneg.
    + apply RunInterrupted; try assumption. unfold RETRY_TIMES in *. lia.
    + destruct fs as [|f fs].
      * rewrite after_failures_nil. rewrite after_failures_nil in Hup.
        now apply RunSleepRefused.
      * exfalso. apply (Qlt_not_le delay 0 Hneg). apply Hdelay. discriminate.
Qed.

(** Every call of [get_html_content] has one of the shapes of a run. *)
Lemma get_html_content_run (w : world) :
  fetch_run upstream key url delay w (get_html_content upstream key url delay w).
Proof.
  rewrite get_html_content_unfold.
  pose proof (for_in_fetch_run 2 [] w) as Hrun.
  rewrite after_failures_nil in Hrun. apply Hrun.
  - split; [constructor|]. intros [|i] e H; discriminate H.
  - reflexivity.
  - intros H. now contradiction H.
Qed.

End FetchRuns.

Lemma status_ok_iff (r : response) :
  status_ok r = true <-> (status_code r < 400 \/ 600 <= status_code r)%Z.
Proof.
  unfold status_ok. rewrite negb_true_iff, andb_false_iff, Z.leb_gt, Z.ltb_ge. tauto.
Qed.

Lemma transient_prefix_nth upstream key url (w : world) (fs : list py_exc) (j : nat) :
  transient_prefix upstream key url w fs ->
  j < List.length fs ->
  exists e, upstream key url (requests_sent w + j) = GetRaises e /\ is_transient e = true.
Proof.
  intros [Hall Hup] Hj.
  destruct (nth_error fs j) as [e|] eqn:He.
  - exists e. split; [now apply Hup|].
    apply (proj1 (Forall_forall _ fs) Hall). now apply (nth_error_In fs j).
  - apply nth_error_None in He. lia.
Qed.

Lemma retry_warnings_all_warnings (delay : Q) (fs : list py_exc) :
  forall first, all_warnings (retry_warnings delay first fs).
Proof.
  induction fs as [|e fs IH]; intros first; simpl.
  - constructor.
  - constructor; [reflexivity | apply IH].
Qed.

Lemma retry_warnings_length (delay : Q) (fs : list py_exc) :
  forall first, List.length (retry_warnings delay first fs) = List.length fs.
Proof.
  induction fs as [|e fs IH]; intros first; simpl; [reflexivity|]. now rewrite IH.
Qed.

(** X5: the content that [get_html_content] returns is always the
    content of a response of this very call whose status is no 4xx or
    5xx, received within the budget of 3 attempts, every earlier
    attempt of the call having failed transiently.  The content of an
    error response is never returned. *)
Theorem get_html_content_returns_good_content
  upstream key url delay (w w' : world) (c : bytes) :
  get_html_content upstream key url delay w = (Returns (Some c), w') ->
  exists i r,
    i < RETRY_TIMES /\
    upstream key url (requests_sent w + i) = Responds r /\
    (status_code r < 400 \/ 600 <= status_code r)%Z /\
    content r = c /\
    forall j, j < i ->
              exists e, upstream key url (requests_sent w + j) = GetRaises e /\
                        is_transient e = true.
Proof.
  intros Hrun.
  pose proof (get_html_content_run upstream key url delay w) as Hshape.
  rewrite Hrun in Hshape.
  inversion Hshape as [fs r Hpre Hlt Hup Hok Heq | | | ].
  exists (List.length fs), r. repeat split; try assumption.
  - now apply status_ok_iff.
  - intros j Hj. now apply (transient_prefix_nth upstream key url w fs j).
Qed.

Lemma get_html_content_returns_good_content_witness :
  exists i r,
    i < RETRY_TIMES /\
    upstream_of [timeout_failure] (ok_response example_body)
                api_key target_url (requests_sent world0 + i) = Responds r /\
    (status_code r < 400 \/ 600 <= status_code r)%Z /\
    content r = example_body /\
    forall j, j < i ->
              exists e, upstream_of [timeout_failure] (ok_response example_body)
                                    api_key target_url (requests_sent world0 + j)
                        = GetRaises e /\
                        is_transient e = true.
Proof.
  apply (get_html_content_returns_good_content
           (upstream_of [timeout_failure] (ok_response example_body))
           api_key target_url default_delay world0
           (snd (get_html_content
                   (upstream_of [timeout_failure] (ok_response example_body))
                   api_key target_url default_delay world0))
           example_body).
  vm_compute. reflexivity.
Defined.

(** X6: [get_html_content] sleeps exactly once between two consecutive
    attempts, always for [delay] (the constant [RETRY_WAIT] plays no
    part), and never after its last attempt: a call that sends [k + 1]
    requests sleeps [k] times, with [k] at most 2. *)
Theorem get_html_content_sleeps_between_attempts upstream key url delay (w : world) :
  exists k,
    k < RETRY_TIMES /\
    requests_sent (snd (get_html_content upstream key url delay w))
    = requests_sent w + k + 1 /\
    slept (snd (get_html_content upstream key url delay w))
    = slept w ++ repeat delay k.
Proof.
  destruct (get_html_content_run upstream key url delay w)
    as [fs r Hpre Hlt Hup Hok | fs m Hpre Hlt Hwhy | fs e Hpre Hlt Hup Hex | e Hup Ht Hneg].
  - exists (List.length fs). simpl. repeat split; [assumption | lia].
  - exists (List.length fs). simpl. repeat split; [assumption | lia].
  - exists (List.length fs). simpl. repeat split; [assumption | lia].
  - exists 0. simpl. repeat split.
    + apply Nat.lt_0_succ.
    + lia.
    + now rewrite app_nil_r.
Qed.

(** X7: every failure that [get_html_content] reports by returning
    [None] is logged: the last record of the call is an error record,
    and the records before it are the warnings of the failed attempts,
    one for every attempt but the last.  A call that returns content
    logs those warnings and no error. *)
Theorem get_html_content_logs_every_failure upstream key url delay (w : world) :
  match fst (get_html_content upstream key url delay w) with
  | Returns None =>
      exists ws m,
        log (snd (get_html_content upstream key url delay w))
        = log w ++ ws ++ [(ERROR, m)] /\
        all_warnings ws /\
        requests_sent (snd (get_html_content upstream key url delay w))
        = requests_sent w + List.length ws + 1
  | Returns (Some _) =>
      exists ws,
        log (snd (get_html_content upstream key url delay w)) = log w ++ ws /\
        all_warnings ws /\
        requests_sent (snd (get_html_content upstream key url delay w))
        = requests_sent w + List.length ws + 1
  | Raises _ => True
  end.
Proof.
  destruct (get_html_content_run upstream key url delay w)
    as [fs r Hpre Hlt Hup Hok | fs m Hpre Hlt Hwhy | fs e Hpre Hlt Hup Hex | e Hup Ht Hneg];
    simpl; try exact I.
  - exists (retry_warnings delay 0 fs). repeat split.
    + now rewrite app_nil_r.
    + apply retry_warnings_all_warnings.
    + rewrite retry_warnings_length. lia.
  - exists (retry_warnings delay 0 fs), m. repeat split.
    + now rewrite <- app_assoc.
    + apply retry_warnings_all_warnings.
    + rewrite retry_warnings_length. lia.
Qed.

(** X8: with a [delay] that [time.sleep] accepts and an upstream whose
    exceptions are all instances of [Exception], [get_html_content]
    never raises, whatever the answers and failures are: every call
    returns content or [None]. *)
Theorem get_html_content_never_raises upstream key url delay (w : world) :
  (0 <= delay)%Q ->
  (forall i e, i < RETRY_TIMES ->
               upstream key url (requests_sent w + i) = GetRaises e ->
               isinstance_Exception e = true) ->
  exists r, fst (get_html_content upstream key url delay w) = Returns r.
Proof.
  intros Hdelay Hexc.
  destruct (get_html_content_run upstream key url delay w)
    as [fs r Hpre Hlt Hup Hok | fs m Hpre Hlt Hwhy | fs e Hpre Hlt Hup Hex | e Hup Ht Hneg].
  - eexists. reflexivity.
  - eexists. reflexivity.
  - exfalso. rewrite (Hexc (List.length fs) e Hlt Hup) in Hex. discriminate Hex.
  - exfalso. now apply (Qlt_not_le delay 0).
Qed.

Lemma get_html_content_never_raises_witness :
  exists r,
    fst (get_html_content
           (upstream_of [timeout_failure; GetRaises (OtherException "boom")]
                        (status_response 500))
           api_key target_url default_delay world0) = Returns r.
Proof.
  apply (get_html_content_never_raises
           (upstream_of [timeout_failure; GetRaises (OtherException "boom")]
                        (status_response 500))
           api_key target_url default_delay world0 default_delay_nonneg).
  intros [|[|[|i]]] e Hi H; simpl in H; inversion H; reflexivity.
Defined.

(** X9: an exception of [requests.get] that is no instance of
    [Exception] (a keyboard interrupt) is caught by no clause: it
    leaves [get_html_content] as it is, nothing being logged for it,
    and leaves [main] unwrapped. *)
Theorem interrupt_passes_through
  upstream BeautifulSoup json_loads (w : world) (fs : list py_exc) (e : py_exc) :
  transient_prefix upstream api_key target_url w fs ->
  List.length fs < RETRY_TIMES ->
  upstream api_key target_url (requests_sent w + List.length fs) = GetRaises e ->
  isinstance_Exception e = false ->
  get_html_content upstream api_key target_url default_delay w
  = (Raises e, after_request [] (after_failures default_delay 0 fs w)) /\
  main upstream BeautifulSoup json_loads w
  = (Raises e, after_request [] (after_failures default_delay 0 fs w)).
Proof.
  intros Hpre Hlt Hup Hex.
  assert (Hfetch : get_html_content upstream api_key target_url default_delay w
                   = (Raises e, after_request [] (after_failures default_delay 0 fs w))).
  { rewrite (get_html_content_after_failures upstream api_key target_url default_delay
               w fs default_delay_nonneg Hpre Hlt).
    destruct (RETRY_TIMES - List.length fs) as [|n] eqn:Hn;
      [unfold RETRY_TIMES in *; lia|].
    simpl seq. rewrite for_in_cons.
    now rewrite (attempt_interrupt upstream api_key target_url default_delay
                   (List.length fs) (after_failures default_delay 0 fs w) e Hup Hex). }
  split; [exact Hfetch|].
  rewrite main_unfold, Hfetch. simpl. now rewrite Hex.
Qed.

Lemma interrupt_passes_through_witness :
  main (upstream_of [timeout_failure] (GetRaises KeyboardInterrupt))
       Reference.BeautifulSoup Reference.json_loads world0
  = (Raises KeyboardInterrupt,
     after_request [] (after_failures default_delay 0 [RequestException Timeout] world0)).
Proof.
  apply (interrupt_passes_through
           (upstream_of [timeout_failure] (GetRaises KeyboardInterrupt))
           Reference.BeautifulSoup Reference.json_loads world0
           [RequestException Timeout] KeyboardInterrupt).
  - split; [repeat constructor|].
    intros [|i] e H; simpl in H; try (inversion H; reflexivity).
    destruct i; discriminate H.
  - apply le_n_S, le_n_S, Nat.le_0_l.
  - reflexivity.
  - reflexivity.
Defined.

(** ** Every run of the parser, the extractor and main *)

(** X10: [parse_html_to_json] hands the outcome of its [try] body
    through unchanged: it returns the decoded document and logs
    nothing, or it raises the very exception that was raised (it wraps
    nothing) after exactly one error record, which is the JSON parsing
    record exactly when the exception is a [JSONDecodeError]; an
    exception that is no [Exception] passes without a record. *)
Theorem parse_html_to_json_reraises_unchanged
  BeautifulSoup json_loads (html_content : bytes) (w : world) :
  fst (parse_html_to_json BeautifulSoup json_loads html_content w)
  = decoded BeautifulSoup json_loads html_content /\
  match fst (parse_html_to_json BeautifulSoup json_loads html_content w) with
  | Returns _ => snd (parse_html_to_json BeautifulSoup json_loads html_content w) = w
  | Raises e =>
      if isinstance_Exception e
      then exists m,
          snd (parse_html_to_json BeautifulSoup json_loads html_content w)
          = emit [(ERROR, m)] w /\
          (m = JsonParsingError \/ m = UnexpectedParsingError e) /\
          (m = JsonParsingError <-> isinstance_JSONDecodeError e = true)
      else snd (parse_html_to_json BeautifulSoup json_loads html_content w) = w
  end.
Proof.
  rewrite parse_html_to_json_spec.
  destruct (decoded BeautifulSoup json_loads html_content) as [json_data|e]; simpl.
  - split; reflexivity.
  - split; [reflexivity|]. unfold parse_failure_records.
    destruct e; simpl;
      try (eexists; split; [reflexivity|]; split; [now right|];
           split; intros H; discriminate H).
    + apply emit_nil.
    + eexists. split; [reflexivity|]. split; [now left|]. split; reflexivity.
Qed.

(** X11: whatever the document is, [extract_user_info] returns or
    raises a [ValueError]: no [TypeError] or [AttributeError] of the
    accesses leaves the function.  The exception that caused the
    failure is kept as the context: the [ValueError] of the failed
    check, a [TypeError] of the check on a value that is no object, or
    the [AttributeError] of a [get] on a value that is no object. *)
Theorem extract_user_info_raises_only_ValueError (json_data : json) (w : world) :
  fst (extract_user_info json_data w) = Returns tt \/
  exists msg cause,
    fst (extract_user_info json_data w) = Raises (ValueError msg (Some cause)) /\
    (cause = ValueError invalid_data_message None \/
     (exists t, cause = TypeError t) \/
     (exists ty, cause = AttributeError ty "get")).
Proof.
  rewrite extract_user_info_spec. simpl fst. unfold extraction.
  destruct (check_shape json_data) as [items| |e] eqn:Hcheck; simpl.
  - destruct (snd (read_items items)) as [other|]; [|now left].
    right. eexists. eexists. split; [reflexivity|]. right. right. now eexists.
  - right. eexists. eexists. split; [reflexivity|]. now left.
  - right. eexists. eexists. split; [reflexivity|]. right. left.
    unfold check_shape in Hcheck.
    destruct (negb (truthy json_data)); [discriminate Hcheck|].
    destruct json_data as [| b | z | f | s | xs | fields].
    + injection Hcheck as <-. now eexists.
    + injection Hcheck as <-. now eexists.
    + injection Hcheck as <-. now eexists.
    + injection Hcheck as <-. now eexists.
    + destruct (str_contains "data" s); [|discriminate Hcheck].
      injection Hcheck as <-. now eexists.
    + destruct (existsb _ xs); [|discriminate Hcheck].
      injection Hcheck as <-. now eexists.
    + destruct (dict_lookup "data" fields) as [[| | | | | |]|]; discriminate Hcheck.
Qed.

(** X12: of an object, [extract_user_info] reads the key ["data"] and
    nothing else: two objects that bind ["data"] to the same value, or
    both leave it out, give the same outcome and the same records,
    whatever their other keys are. *)
Theorem extract_user_info_reads_only_data
  (fields1 fields2 : list (string * json)) (w : world) :
  dict_lookup "data" fields1 = dict_lookup "data" fields2 ->
  extract_user_info (JObject fields1) w = extract_user_info (JObject fields2) w.
Proof.
  intros Hdata. rewrite !extract_user_info_spec.
  assert (Hshape : forall fields,
             check_shape (JObject fields) =
             match dict_lookup "data" fields with
             | Some (JArray items) => ShapeAccepted items
             | _ => ShapeRejected
             end).
  { intros [|field rest]; [reflexivity|]. reflexivity. }
  unfold extraction. now rewrite !Hshape, Hdata.
Qed.

Lemma extract_user_info_reads_only_data_witness :
  extract_user_info (JObject [("data", JArray [JObject []]); ("page", JInt 2)]) world0
  = extract_user_info (JObject [("total", JNull); ("data", JArray [JObject []])]) world0.
Proof.
  apply (extract_user_info_reads_only_data
           [("data", JArray [JObject []]); ("page", JInt 2)]
           [("total", JNull); ("data", JArray [JObject []])] world0).
  reflexivity.
Defined.

Lemma record_of_same_leaves (fields1 fields2 : list (string * json)) :
  same_leaves fields1 fields2 -> record_of fields1 = record_of fields2.
Proof.
  intros Hsame. unfold record_of.
  rewrite (Hsame "id"), (Hsame "username"), (Hsame "bio"), (Hsame "instagram"),
    (Hsame "twitter"), (Hsame "youtube"), (Hsame "discord"), (Hsame "tiktok"),
    (Hsame "facebook"), (Hsame "profilepic");
    try reflexivity; unfold leaf_keys; simpl; tauto.
Qed.

Lemma map_record_of_same_leaves (users1 users2 : list (list (string * json))) :
  Forall2 same_leaves users1 users2 -> map record_of users1 = map record_of users2.
Proof.
  induction 1 as [|f1 f2 rest1 rest2 Hf _ IH]; simpl; [reflexivity|].
  now rewrite (record_of_same_leaves f1 f2 Hf), IH.
Qed.

Lemma read_items_user_items (users : list (list (string * json))) :
  snd (read_items (map user_item users)) = None /\
  logged_user_infos (fst (read_items (map user_item users))) = map record_of users.
Proof.
  induction users as [|fields rest [IHstop IHrecs]]; simpl.
  - split; reflexivity.
  - change (read_item (user_item fields))
      with (inl (B:=json) (JObject [("user", JObject fields)], record_of fields)).
    cbv iota beta. destruct (read_items (map user_item rest)) as [evs stop].
    simpl in *. split; [assumption|]. now rewrite IHrecs.
Qed.

(** X13: the user record depends on the ten leaves of the user object
    alone, and a leaf bound to [null] gives the same record as a leaf
    that is missing: two lists of user objects that agree on those
    leaves, pair by pair, are extracted to the same user records,
    whatever other keys the objects carry. *)
Theorem extract_user_info_null_is_missing
  (users1 users2 : list (list (string * json))) (w : world) :
  Forall2 same_leaves users1 users2 ->
  exists evs1 evs2,
    extract_user_info (JObject [("data", JArray (map user_item users1))]) w
    = (Returns tt, emit evs1 w) /\
    extract_user_info (JObject [("data", JArray (map user_item users2))]) w
    = (Returns tt, emit evs2 w) /\
    logged_user_infos evs1 = logged_user_infos evs2 /\
    List.length (logged_user_infos evs1) = List.length users1.
Proof.
  intros Hsame.
  destruct (read_items_user_items users1) as [Hstop1 Hrecs1].
  destruct (read_items_user_items users2) as [Hstop2 Hrecs2].
  exists (fst (read_items (map user_item users1))),
         (fst (read_items (map user_item users2))).
  rewrite !extract_user_info_spec. unfold extraction, check_shape. simpl.
  rewrite Hstop1, Hstop2, Hrecs1, Hrecs2.
  repeat split.
  - now apply map_record_of_same_leaves.
  - apply length_map.
Qed.

Lemma extract_user_info_null_is_missing_witness :
  exists evs1 evs2,
    extract_user_info
      (JObject [("data", JArray (map user_item [[("id", JString "7"); ("bio", JNull)]]))])
      world0 = (Returns tt, emit evs1 world0) /\
    extract_user_info
      (JObject [("data", JArray (map user_item [[("followers", JInt 3);
                                                 ("id", JString "7")]]))])
      world0 = (Returns tt, emit evs2 world0) /\
    logged_user_infos evs1 = logged_user_infos evs2 /\
    List.length (logged_user_infos evs1) = 1.
Proof.
  apply (extract_user_info_null_is_missing
           [[("id", JString "7"); ("bio", JNull)]]
           [[("followers", JInt 3); ("id", JString "7")]] world0).
  constructor; [|constructor].
  intros key Hkey. unfold leaf_keys in Hkey. simpl in Hkey.
  repeat (destruct Hkey as [<-|Hkey]; [reflexivity|]). contradiction Hkey.
Defined.

(** X14: an [Exception] never leaves [main] as it was raised: [main]
    returns, or raises the generic [ValueError] of its handler around
    the exception of the failing stage, or lets through an exception
    that is no [Exception], which only the fetch or the library calls
    of the parser can raise. *)
Theorem main_raises_only_generic_error
  upstream BeautifulSoup json_loads (w : world) :
  fst (main upstream BeautifulSoup json_loads w) = Returns tt \/
  (exists cause,
     fst (main upstream BeautifulSoup json_loads w) = Raises (generic_error cause) /\
     isinstance_Exception cause = true) \/
  (exists e,
     fst (main upstream BeautifulSoup json_loads w) = Raises e /\
     isinstance_Exception e = false /\
     (fst (get_html_content upstream api_key target_url default_delay w) = Raises e \/
      exists body, decoded BeautifulSoup json_loads body = Raises e)).
Proof.
  rewrite main_unfold.
  destruct (get_html_content upstream api_key target_url default_delay w) as [[c|e] w1].
  - destruct (negb (truthy_content c)).
    + right. left. eexists. split; reflexivity.
    + rewrite parse_html_to_json_spec.
      destruct (decoded BeautifulSoup json_loads (as_bytes c)) as [json_data|e] eqn:Hdec.
      * destruct (negb (truthy json_data)).
        -- right. left. eexists. split; reflexivity.
        -- rewrite extract_user_info_spec. simpl fst.
           destruct (fst (extraction json_data)) as [[]|e] eqn:Hext; simpl.
           ++ now left.
           ++ rewrite (extraction_raises_ValueError json_data e Hext).
              right. left. exists e. split; [reflexivity|].
              apply (extraction_raises_ValueError json_data e Hext).
      * simpl. destruct (isinstance_Exception e) eqn:Hex.
        -- right. left. now exists e.
        -- right. right. exists e. repeat split; try assumption.
           right. now exists (as_bytes c).
  - simpl. destruct (isinstance_Exception e) eqn:Hex.
    + right. left. now exists e.
    + right. right. exists e. repeat split; try assumption. now left.
Qed.

(** X15: after the fetch, [main] does no input or output but logging:
    the parser and the extractor send no request and never sleep, so
    the requests and the sleeps of a run of [main] are those of its one
    call of [get_html_content]. *)
Theorem main_only_fetch_touches_the_network
  upstream BeautifulSoup json_loads (w : world) :
  requests_sent (snd (main upstream BeautifulSoup json_loads w))
  = requests_sent (snd (get_html_content upstream api_key target_url default_delay w)) /\
  slept (snd (main upstream BeautifulSoup json_loads w))
  = slept (snd (get_html_content upstream api_key target_url default_delay w)).
Proof.
  destruct (get_html_content upstream api_key target_url default_delay w)
    as [[c|e] w1] eqn:Hfetch.
  - rewrite (main_after_fetch upstream BeautifulSoup json_loads w w1 c Hfetch).
    split; reflexivity.
  - rewrite main_unfold, Hfetch. split; reflexivity.
Qed.

Lemma read_items_length (items : list json) :
  snd (read_items items) = None ->
  List.length (fst (read_items items)) = 2 * List.length items.
Proof.
  induction items as [|item rest IH]; simpl; [reflexivity|].
  destruct (read_item item) as [[channel_info info]|other]; [|discriminate].
  destruct (read_items rest) as [evs stop]. simpl in *.
  intros Hstop. rewrite (IH Hstop). lia.
Qed.

(** X16: the stages compose: when the fetch returns a body that is not
    empty, the text of its [body] tag decodes to an object with
    ["data"] bound to a list, and every element can be read, [main]
    returns, and what it logs after the fetch is two records per
    element, with the user records of the elements in their order. *)
Theorem main_extracts_the_fetched_records
  upstream BeautifulSoup json_loads (w w1 : world) (body : bytes)
  (soup : list node) (tag : node) (fields : list (string * json)) (items : list json) :
  get_html_content upstream api_key target_url default_delay w = (Returns (Some body), w1) ->
  body <> "" ->
  BeautifulSoup body = Returns soup ->
  soup_body soup = Some tag ->
  json_loads (get_text tag) = Returns (JObject fields) ->
  dict_lookup "data" fields = Some (JArray items) ->
  Forall readable items ->
  exists evs,
    main upstream BeautifulSoup json_loads w = (Returns tt, emit evs w1) /\
    Forall2 record_of_item items (logged_user_infos evs) /\
    List.length evs = 2 * List.length items.
Proof.
  intros Hfetch Hbody Hsoup Htag Hjson Hdata Hitems.
  destruct (read_items_readable items Hitems) as [Hstop Hrecs].
  exists (fst (read_items items)). split; [|split].
  - rewrite (main_after_fetch upstream BeautifulSoup json_loads w w1 _ Hfetch).
    unfold after_fetch.
    assert (Htruthy : truthy_content (Some body) = true).
    { simpl. apply negb_true_iff. now apply String.eqb_neq. }
    rewrite Htruthy. simpl negb. cbv iota. simpl as_bytes.
    unfold decoded. rewrite Hsoup, Htag, Hjson.
    destruct (check_shape_accepts (JObject fields)) as [fields' [items' [Heq [Hdata' Hcheck]]]].
    { simpl. now rewrite Hdata. }
    injection Heq as <-. rewrite Hdata in Hdata'. injection Hdata' as <-.
    assert (Hobj : truthy (JObject fields) = true).
    { destruct fields; [discriminate Hdata | reflexivity]. }
    rewrite Hobj. simpl negb. cbv iota.
    unfold extraction. rewrite Hcheck, Hstop. reflexivity.
  - exact Hrecs.
  - now apply read_items_length.
Qed.

Lemma main_extracts_the_fetched_records_witness :
  exists evs,
    main (upstream_of [timeout_failure] (ok_response one_user_body))
         Reference.BeautifulSoup Reference.json_loads world0
    = (Returns tt,
       emit evs (snd (get_html_content
                        (upstream_of [timeout_failure] (ok_response one_user_body))
                        api_key target_url default_delay world0))) /\
    Forall2 record_of_item
            [user_item [("id", JString "1"); ("username", JString "a")]]
            (logged_user_infos evs) /\
    List.length evs = 2 * 1.
Proof.
  apply (main_extracts_the_fetched_records
           (upstream_of [timeout_failure] (ok_response one_user_body))
           Reference.BeautifulSoup Reference.json_loads world0
           (snd (get_html_content
                   (upstream_of [timeout_failure] (ok_response one_user_body))
                   api_key target_url default_delay world0))
           one_user_body
           (match Reference.BeautifulSoup one_user_body with
            | Returns soup => soup
            | Raises _ => []
            end)
           (match Reference.BeautifulSoup one_user_body with
            | Returns soup =>
                match soup_body soup with
                | Some tag => tag
                | None => Tag "" []
                end
            | Raises _ => Tag "" []
            end)
           [("data", JArray [user_item [("id", JString "1"); ("username", JString "a")]])]
           [user_item [("id", JString "1"); ("username", JString "a")]]).
  - vm_compute. reflexivity.
  - discriminate.
  - vm_compute. reflexivity.
  - vm_compute. reflexivity.
  - vm_compute. reflexivity.
  - reflexivity.
  - constructor; [|constructor]. eexists. eexists. reflexivity.
Defined.

(** X17: [get_html_content] returns [None] only when the fetch has
    failed in one of its failure modes (an HTTP status error, the
    exhausted budget, a rate-limit signal or another exception, each
    after transient failures within the budget).  In particular the
    loop never falls through to the implicit [None], and never
    returns [None] for an attempt that was answered with a good
    status. *)
Theorem get_html_content_None_only_on_failure
  upstream key url delay (w w' : world) :
  get_html_content upstream key url delay w = (Returns None, w') ->
  fetch_failure upstream key url w.
Proof.
  intros Hrun.
  pose proof (get_html_content_run upstream key url delay w) as Hshape.
  rewrite Hrun in Hshape.
  inversion Hshape as [ | fs m Hpre Hlt Hwhy Heq | | ].
  destruct Hwhy as [[r [Hup [Hok _]]] | [[e [Hup [Ht [Hex _]]]] | [e [Hup [Ht [Hlast _]]]]]].
  - now apply (HttpStatusFailure upstream key url w fs r).
  - now apply (UnexpectedException upstream key url w fs e).
  - apply (BudgetExhausted upstream key url w (fs ++ [e])).
    + now apply transient_prefix_snoc.
    + rewrite length_app. unfold RETRY_TIMES in *. simpl in *. lia.
Qed.

Lemma get_html_content_None_only_on_failure_witness :
  fetch_failure (upstream_of [timeout_failure] (status_response 503))
                api_key target_url world0.
Proof.
  apply (get_html_content_None_only_on_failure
           (upstream_of [timeout_failure] (status_response 503))
           api_key target_url default_delay world0
           (snd (get_html_content (upstream_of [timeout_failure] (status_response 503))
                                  api_key target_url default_delay world0))).
  vm_compute. reflexivity.
Defined.

(** X18: what the returned [None] hides, the log keeps: when
    [get_html_content] returns [None], the message of its last record,
    an error, names the cause, the HTTP error with its status code,
    the exception that was no transient failure (a rate-limit one
    under its own message), or the exhausted budget with the last
    transient failure; before it stand the warnings of the transient
    failures that came first. *)
Theorem get_html_content_log_names_the_cause
  upstream key url delay (w w' : world) :
  get_html_content upstream key url delay w = (Returns None, w') ->
  exists fs m,
    transient_prefix upstream key url w fs /\
    List.length fs < RETRY_TIMES /\
    log w' = log w ++ retry_warnings delay 0 fs ++ [(ERROR, m)] /\
    gave_up upstream key url (List.length fs) (after_failures delay 0 fs w) m.
Proof.
  intros Hrun.
  pose proof (get_html_content_run upstream key url delay w) as Hshape.
  rewrite Hrun in Hshape.
  inversion Hshape as [ | fs m Hpre Hlt Hwhy Heq | | ].
  exists fs, m. repeat split; try assumption; try apply Hpre.
  simpl. now rewrite <- app_assoc.
Qed.

Lemma get_html_content_log_names_the_cause_witness :
  exists fs m,
    transient_prefix (upstream_of [timeout_failure] (status_response 503))
                     api_key target_url world0 fs /\
    List.length fs < RETRY_TIMES /\
    log (snd (get_html_content (upstream_of [timeout_failure] (status_response 503))
                               api_key target_url default_delay world0))
    = log world0 ++ retry_warnings default_delay 0 fs ++ [(ERROR, m)] /\
    gave_up (upstream_of [timeout_failure] (status_response 503)) api_key target_url
            (List.length fs) (after_failures default_delay 0 fs world0) m.
Proof.
  apply (get_html_content_log_names_the_cause
           (upstream_of [timeout_failure] (status_response 503))
           api_key target_url default_delay world0
           (snd (get_html_content (upstream_of [timeout_failure] (status_response 503))
                                  api_key target_url default_delay world0))).
  vm_compute. reflexivity.
Defined.

(** ** The failures that main surfaces *)

Lemma get_html_content_raises_interrupt upstream (w w1 : world) (e : py_exc) :
  get_html_content upstream api_key target_url default_delay w = (Raises e, w1) ->
  isinstance_Exception e = false.
Proof.
  intros Hrun.
  pose proof (get_html_content_run upstream api_key target_url default_delay w) as Hshape.
  rewrite Hrun in Hshape.
  inversion Hshape as [ | | fs e' Hpre Hlt Hup Hex Heq | e' Hup Ht Hneg Heq ].
  - exact Hex.
  - exfalso. apply (Qlt_not_le default_delay 0 Hneg). exact default_delay_nonneg.
Qed.

(** C6, as the code has it: [main] runs the fetch, then the parser, then
    the extractor, and stops at the first stage that fails: the world
    it leaves is the one that stage left, so no later stage has run,
    and nothing is returned.  Every failure that is an [Exception] is
    raised by the catch-all handler as a [ValueError] that carries no
    stage tag: its class is the same for every stage, the exception of
    the failing stage is chained to it as its context, and what its
    message says depends on that exception alone.  For a failed fetch
    that exception is the one error [retrieve_error], whatever made the
    fetch fail, so the kind of a fetch failure is not carried.  When
    the body fails to parse, the context is the parser's exception.
    An exception that is no [Exception], which the fetch or the library
    calls of the parser may raise, passes unwrapped. *)
Theorem main_short_circuits :
  exists message_of : py_exc -> string,
  forall upstream BeautifulSoup json_loads (w w1 : world) (o : outcome (option bytes)),
    get_html_content upstream api_key target_url default_delay w = (o, w1) ->
    (forall e,
       o = Raises e ->
       isinstance_Exception e = false /\
       main upstream BeautifulSoup json_loads w = (Raises e, w1)) /\
    (forall c,
       o = Returns c ->
       truthy_content c = false ->
       main upstream BeautifulSoup json_loads w
       = (Raises (surfaced_as message_of retrieve_error), w1)) /\
    (forall c e w2,
       o = Returns c ->
       truthy_content c = true ->
       parse_html_to_json BeautifulSoup json_loads (as_bytes c) w1 = (Raises e, w2) ->
       isinstance_Exception e = true ->
       main upstream BeautifulSoup json_loads w = (Raises (surfaced_as message_of e), w2)) /\
    (forall c e w2,
       o = Returns c ->
       truthy_content c = true ->
       parse_html_to_json BeautifulSoup json_loads (as_bytes c) w1 = (Raises e, w2) ->
       isinstance_Exception e = false ->
       main upstream BeautifulSoup json_loads w = (Raises e, w2)) /\
    (forall c json_data w2,
       o = Returns c ->
       truthy_content c = true ->
       parse_html_to_json BeautifulSoup json_loads (as_bytes c) w1
       = (Returns json_data, w2) ->
       truthy json_data = false ->
       main upstream BeautifulSoup json_loads w
       = (Raises (surfaced_as message_of parse_error), w2)) /\
    (forall c json_data w2 e w3,
       o = Returns c ->
       truthy_content c = true ->
       parse_html_to_json BeautifulSoup json_loads (as_bytes c) w1
       = (Returns json_data, w2) ->
       truthy json_data = true ->
       extract_user_info json_data w2 = (Raises e, w3) ->
       main upstream BeautifulSoup json_loads w = (Raises (surfaced_as message_of e), w3)) /\
    (forall c json_data w2 w3,
       o = Returns c ->
       truthy_content c = true ->
       parse_html_to_json BeautifulSoup json_loads (as_bytes c) w1
       = (Returns json_data, w2) ->
       truthy json_data = true ->
       extract_user_info json_data w2 = (Returns tt, w3) ->
       main upstream BeautifulSoup json_loads w = (Returns tt, w3)).
Proof.
  exists (fun _ => "An error occurred: {e}").
  intros upstream B J w w1 o Hfetch.
  split; [|split; [|split; [|split; [|split; [|split]]]]].
  - intros e ->.
    pose proof (get_html_content_raises_interrupt upstream w w1 e Hfetch) as Hex.
    split; [exact Hex|]. rewrite main_unfold, Hfetch. simpl. now rewrite Hex.
  - intros c -> Hc. rewrite main_unfold, Hfetch, Hc. reflexivity.
  - intros c e w2 -> Hc Hparse He. rewrite main_unfold, Hfetch, Hc. simpl negb. cbv iota.
    rewrite Hparse. simpl. now rewrite He.
  - intros c e w2 -> Hc Hparse He. rewrite main_unfold, Hfetch, Hc. simpl negb. cbv iota.
    rewrite Hparse. simpl. now rewrite He.
  - intros c json_data w2 -> Hc Hparse Hfalsy. rewrite main_unfold, Hfetch, Hc.
    simpl negb. cbv iota. rewrite Hparse, Hfalsy. reflexivity.
  - intros c json_data w2 e w3 -> Hc Hparse Htruthy Hextract.
    rewrite main_unfold, Hfetch, Hc. simpl negb. cbv iota.
    rewrite Hparse, Htruthy. simpl negb. cbv iota. rewrite Hextract. simpl.
    assert (He : isinstance_Exception e = true).
    { apply (extraction_raises_ValueError json_data).
      rewrite extract_user_info_spec in Hextract. now injection Hextract as -> _. }
    now rewrite He.
  - intros c json_data w2 w3 -> Hc Hparse Htruthy Hextract.
    rewrite main_unfold, Hfetch, Hc. simpl negb. cbv iota.
    rewrite Hparse, Htruthy. simpl negb. cbv iota. now rewrite Hextract.
Qed.

Lemma main_short_circuits_witness :
  exists msg cause_msg,
    main (upstream_of [] (ok_response not_json_body))
         Reference.BeautifulSoup Reference.json_loads world0 =
    (Raises (ValueError msg (Some (JSONDecodeError cause_msg))),
     {| log := [(ERROR, JsonParsingError)]; slept := []; requests_sent := 1 |}).
Proof.
  destruct main_short_circuits as [message_of Hmain].
  exists (message_of (JSONDecodeError "Expecting value")), "Expecting value".
  destruct (Hmain (upstream_of [] (ok_response not_json_body))
                  Reference.BeautifulSoup Reference.json_loads world0
                  {| log := []; slept := []; requests_sent := 1 |}
                  (Returns (Some not_json_body)) eq_refl)
    as [_ [_ [Hparse _]]].
  apply (Hparse (Some not_json_body) (JSONDecodeError "Expecting value")).
  - reflexivity.
  - reflexivity.
  - vm_compute. reflexivity.
  - reflexivity.
Defined.

(** C6, as the spec has it, fails.  A fetch that fails on a 404 and a
    fetch that exhausts its retries on timeouts surface as one and the
    same exception, context included, so the kind of the failure is
    not carried; and a failure of the fetch, of the parser and of the
    extractor all surface as a [ValueError], a class that names no
    stage. *)
Lemma main_errors_carry_no_stage_tag :
  run_main (upstream_of [] (status_response 404))
  = run_main (upstream_of [] timeout_failure) /\
  exists fetch_msg fetch_cause parse_msg parse_cause extract_msg extract_cause,
    run_main (upstream_of [] (status_response 404))
    = Raises (ValueError fetch_msg fetch_cause) /\
    run_main (upstream_of [] (ok_response not_json_body))
    = Raises (ValueError parse_msg parse_cause) /\
    run_main (upstream_of [] (ok_response data_not_a_list_body))
    = Raises (ValueError extract_msg extract_cause).
Proof.
  split; [vm_compute; reflexivity|].
  do 6 eexists.
  split; [|split]; vm_compute; reflexivity.
Qed.
